(** * The allotment scraper: CSV serializer, table extractor, crawl loops

    A shallow embedding of [scrape.js], and what it guarantees.  The
    definitions come first:

    - the values the script handles (strings, numbers, [null], [undefined],
      plain objects and what they inherit), the pure function
      [convertToCsv], the page functions handed to [page.evaluate] and the
      copy by value in which their results reach the script;
    - the effectful function [scrapeAllotments], written in a state and
      exception monad over an arbitrary browser and file system, and what
      can be read off the trace of a run;
    - a small model of the remote site, on which whole crawls are run;
    - a reader of comma-separated text, typed by the columns of a record.

    The properties follow, in the same order, and the runs of the examples
    close the file.

    Strings are sequences of code units; the model keeps the units below 256,
    which is all the functions below ever test for (quote, comma, line feed,
    white space, ASCII letters and digits). *)

From Stdlib Require Import List String Ascii Bool Arith NArith ZArith Lia.
Import ListNotations.
Open Scope string_scope.
Open Scope list_scope.

(** ** Characters and strings *)

Definition dquote : ascii := "034"%char.
Definition comma : ascii := ","%char.
Definition newline : ascii := "010"%char.

Definition str1 (c : ascii) : string := String c EmptyString.

(** [s.includes(c)] for a one-character needle. *)
Fixpoint includes (c : ascii) (s : string) : bool :=
  match s with
  | EmptyString => false
  | String d s' => Ascii.eqb d c || includes c s'
  end.

(** The global replace of the escaping step: every double-quote character
    becomes two of them. *)
Fixpoint replaceQuotes (s : string) : string :=
  match s with
  | EmptyString => EmptyString
  | String c s' =>
      if Ascii.eqb c dquote
      then String dquote (String dquote (replaceQuotes s'))
      else String c (replaceQuotes s')
  end.

(** The template literal that puts a value between two quotes. *)
Definition quoted (s : string) : string := String dquote (s ++ str1 dquote).

(** [Array.prototype.join] on an array whose elements are already strings. *)
Fixpoint join (sep : string) (l : list string) : string :=
  match l with
  | [] => EmptyString
  | [x] => x
  | x :: rest => (x ++ sep ++ join sep rest)%string
  end.

(** White space as [String.prototype.trim] and the regular expression class
    [\s] see it, among the code units below 256: tab, line feed, vertical tab,
    form feed, carriage return, space and no-break space. *)
Definition isWhiteSpace (c : ascii) : bool :=
  let n := nat_of_ascii c in
  ((9 <=? n) && (n <=? 13) || (n =? 32) || (n =? 160))%nat.

Fixpoint trimStart (s : string) : string :=
  match s with
  | EmptyString => EmptyString
  | String c s' => if isWhiteSpace c then trimStart s' else s
  end.

Fixpoint trimEnd (s : string) : string :=
  match s with
  | EmptyString => EmptyString
  | String c s' =>
      match trimEnd s' with
      | EmptyString => if isWhiteSpace c then EmptyString else str1 c
      | t => String c t
      end
  end.

Definition trim (s : string) : string := trimEnd (trimStart s).

(** ** Numbers

    The script reads numbers with unary plus and prints them through
    [Array.prototype.join].  Both are the language's own conversions, so the
    development takes them as an interface: a type of numbers with its
    not-a-number value, the conversion of a string to a number, the
    conversion of a number to a string, which prints not-a-number as [NaN],
    and the test for a finite number, which not-a-number fails. *)

Class JSNumber : Type := {
  number : Type;
  NaN : number;
  StringToNumber : string -> number;
  NumberToString : number -> string;
  isFinite : number -> bool;
  NumberToString_NaN : NumberToString NaN = "NaN";
  isFinite_NaN : isFinite NaN = false
}.

(** One implementation of the interface: the double-precision numbers of
    the language.  A finite number is a sign, a mantissa [m] below [2 ^ 53]
    and an exponent [e] from -1074 to 971, and its absolute value is
    [m * 2 ^ e]; the mantissa is at least [2 ^ 52] unless the exponent is
    -1074, and zero is written with the exponent 0.

    [ofString] is the conversion of a string to a number: white space
    around the numeral goes, the empty string is 0, a numeral is a decimal
    one with an optional sign, fraction and exponent, or [Infinity] with an
    optional sign, or an unsigned hexadecimal, octal or binary integer after
    its prefix, and any other text is not-a-number.  The value of a numeral
    is rounded to the nearest number, to the even mantissa in a tie.

    [toString] is the conversion of a number to a string: the shortest
    decimal digits that read back as the number, laid out with a point or
    an exponent as the language does. *)
Module Double.

Local Open Scope Z_scope.

Inductive num : Type :=
| NotANumber
| Infinite (negative : bool)
| Finite (negative : bool) (m e : Z).

(** The largest [d] with [2 ^ d <= p / q], for positive [p] and [q]. *)
Definition floorLog2 (p q : Z) : Z :=
  let d := Z.log2 p - Z.log2 q in
  let atLeast := if 0 <=? d then q * 2 ^ d <=? p else q <=? p * 2 ^ (- d) in
  if atLeast then d else d - 1.

(** [p / q] rounded to the nearest integer, to the even one in a tie. *)
Definition roundEven (p q : Z) : Z :=
  let m := p / q in
  match 2 * (p mod q) ?= q with
  | Lt => m
  | Gt => m + 1
  | Eq => if Z.even m then m else m + 1
  end.

(** The number nearest to [p / q], with the given sign: the mantissa is
    the quotient rounded at the exponent of its 53 leading bits, or at
    -1074 when it is smaller than that; a mantissa that rounds up to
    [2 ^ 53] moves to the next exponent, and a value past the largest
    number is infinite. *)
Definition ofRational (negative : bool) (p q : Z) : num :=
  if p =? 0 then Finite negative 0 0 else
  let e := Z.max (floorLog2 p q - 52) (-1074) in
  let m := if 0 <=? e then roundEven p (q * 2 ^ e)
           else roundEven (p * 2 ^ (- e)) q in
  if m =? 0 then Finite negative 0 0 else
  let e' := if m =? 2 ^ 53 then e + 1 else e in
  let m' := if m =? 2 ^ 53 then 2 ^ 52 else m in
  if 971 <? e' then Infinite negative else Finite negative m' e'.

(** The value of a digit of the base, in either case of its letters. *)
Definition digitOf (base : Z) (c : ascii) : option Z :=
  let n := Z.of_N (N_of_ascii c) in
  let d := if (48 <=? n) && (n <=? 57) then n - 48
           else if (97 <=? n) && (n <=? 102) then n - 87
           else if (65 <=? n) && (n <=? 70) then n - 55
           else base in
  if d <? base then Some d else None.

(** The digits [s] starts with: their value after [acc], their number
    after [count], and the text that follows them. *)
Fixpoint readDigits (base acc count : Z) (s : string) : Z * Z * string :=
  match s with
  | EmptyString => (acc, count, s)
  | String c s' =>
      match digitOf base c with
      | Some d => readDigits base (base * acc + d) (count + 1) s'
      | None => (acc, count, s)
      end
  end.

(** The number of the decimal numeral with the digits [digits], of which
    there are [count], times [10 ^ scale].  A numeral that far exceeds the
    largest number, or lies far below the smallest, is settled without
    its power of ten. *)
Definition ofDigits (negative : bool) (digits count scale : Z) : num :=
  if digits =? 0 then Finite negative 0 0
  else if 0 <=? scale then
    if 400 <? scale then Infinite negative
    else ofRational negative (digits * 10 ^ scale) 1
  else
    if count + 400 <? - scale then Finite negative 0 0
    else ofRational negative digits (10 ^ (- scale)).

Definition isExponentMark (c : ascii) : bool :=
  Ascii.eqb c "e" || Ascii.eqb c "E".

(** The exponent part that ends a numeral: nothing, or a mark, an
    optional sign and at least one digit. *)
Definition readExponent (s : string) : option Z :=
  match s with
  | EmptyString => Some 0
  | String c s' =>
      if isExponentMark c then
        let '(negative, s'') :=
          match s' with
          | String "+" r => (false, r)
          | String "-" r => (true, r)
          | _ => (false, s')
          end in
        match readDigits 10 0 0 s'' with
        | (v, count, EmptyString) =>
            if count =? 0 then None
            else Some (if negative : bool then - v else v)
        | _ => None
        end
      else None
  end.

(** A decimal numeral after its sign: [Infinity], or digits with an
    optional point among them and an optional exponent part. *)
Definition ofDecimal (negative : bool) (s : string) : num :=
  if String.eqb s "Infinity" then Infinite negative else
  let '(whole, nWhole, r1) := readDigits 10 0 0 s in
  let '(digits, nFraction, r2) :=
    match r1 with
    | String "." r => readDigits 10 whole 0 r
    | _ => (whole, 0, r1)
    end in
  if nWhole + nFraction =? 0 then NotANumber else
  match readExponent r2 with
  | Some e => ofDigits negative digits (nWhole + nFraction) (e - nFraction)
  | None => NotANumber
  end.

(** An integer numeral after its prefix. *)
Definition ofRadix (base : Z) (s : string) : num :=
  match readDigits base 0 0 s with
  | (v, count, EmptyString) =>
      if count =? 0 then NotANumber else ofRational false v 1
  | _ => NotANumber
  end.

Definition radixOf (c : ascii) : option Z :=
  if Ascii.eqb c "x" || Ascii.eqb c "X" then Some 16
  else if Ascii.eqb c "o" || Ascii.eqb c "O" then Some 8
  else if Ascii.eqb c "b" || Ascii.eqb c "B" then Some 2
  else None.

Definition ofTrimmed (s : string) : num :=
  match s with
  | EmptyString => Finite false 0 0
  | String "+" r => ofDecimal false r
  | String "-" r => ofDecimal true r
  | String "0" (String c r) =>
      match radixOf c with
      | Some base => ofRadix base r
      | None => ofDecimal false s
      end
  | _ => ofDecimal false s
  end.

Definition ofString (s : string) : num := ofTrimmed (trim s).

(** The decimal digits of a positive integer. *)
Definition digitChar (d : Z) : ascii := ascii_of_N (Z.to_N (48 + d)).

Fixpoint digitsOf (fuel : nat) (n : Z) (acc : string) : string :=
  match fuel with
  | O => acc
  | S fuel' =>
      let acc' := String (digitChar (n mod 10)) acc in
      if n / 10 =? 0 then acc' else digitsOf fuel' (n / 10) acc'
  end.

Definition decimal (n : Z) : string :=
  digitsOf (S (Z.to_nat (Z.log2 n))) n EmptyString.

Fixpoint zeros (n : nat) : string :=
  match n with
  | O => EmptyString
  | S n' => String "0" (zeros n')
  end.

(** [m * 2 ^ e] against [10 ^ t]. *)
Definition comparePow10 (m e t : Z) : comparison :=
  m * 2 ^ Z.max e 0 * 10 ^ Z.max (- t) 0
  ?= 2 ^ Z.max (- e) 0 * 10 ^ Z.max t 0.

Fixpoint settle (fuel : nat) (m e n : Z) : Z :=
  match fuel with
  | O => n
  | S fuel' =>
      match comparePow10 m e (n - 1) with
      | Lt => settle fuel' m e (n - 1)
      | _ =>
          match comparePow10 m e n with
          | Lt => n
          | _ => settle fuel' m e (n + 1)
          end
      end
  end.

(** The [n] with [10 ^ (n - 1) <= m * 2 ^ e < 10 ^ n]. *)
Definition magnitude (m e : Z) : Z :=
  settle 4 m e ((Z.log2 m + e) * 30103 / 100000 + 1).

Definition isThat (m e : Z) (x : num) : bool :=
  match x with
  | Finite false m' e' => (m =? m') && (e =? e')
  | _ => false
  end.

(** The shortest digits that read back as [m * 2 ^ e], from [k] digits
    on: the integer [s] and the power of ten it is scaled by. *)
Fixpoint shortest (fuel : nat) (m e n k : Z) : Z * Z :=
  let t := n - k in
  let p := m * 2 ^ Z.max e 0 * 10 ^ Z.max (- t) 0 in
  let q := 2 ^ Z.max (- e) 0 * 10 ^ Z.max t 0 in
  let lo := p / q in
  let hi := lo + 1 in
  match fuel with
  | O => (lo, t)
  | S fuel' =>
      let back s :=
        isThat m e (ofRational false (s * 10 ^ Z.max t 0) (10 ^ Z.max (- t) 0)) in
      match back lo, back hi with
      | true, true =>
          match 2 * p ?= (lo + hi) * q with
          | Lt => (lo, t)
          | Gt => (hi, t)
          | Eq => (if Z.even lo then lo else hi, t)
          end
      | true, false => (lo, t)
      | false, true => (hi, t)
      | false, false => shortest fuel' m e n (k + 1)
      end
  end.

(** The same value without the zeros that end its digits. *)
Fixpoint stripZeros (fuel : nat) (s t : Z) : Z * Z :=
  match fuel with
  | O => (s, t)
  | S fuel' => if s mod 10 =? 0 then stripZeros fuel' (s / 10) (t + 1) else (s, t)
  end.

Definition take (n : nat) (s : string) : string := String.substring 0 n s.
Definition drop (n : nat) (s : string) : string :=
  String.substring n (String.length s - n) s.

(** The digits of a number whose value is [0.digits * 10 ^ n], laid out:
    as an integer, with a point, with leading zeros after the point, or
    with an exponent. *)
Definition layout (digits : string) (n : Z) : string :=
  let k := Z.of_nat (String.length digits) in
  if (k <=? n) && (n <=? 21) then (digits ++ zeros (Z.to_nat (n - k)))%string
  else if (0 <? n) && (n <=? 21)
  then (take (Z.to_nat n) digits ++ "." ++ drop (Z.to_nat n) digits)%string
  else if (-6 <? n) && (n <=? 0)
  then ("0." ++ zeros (Z.to_nat (- n)) ++ digits)%string
  else
    let e := n - 1 in
    let sign := if e <? 0 then "-" else "+" in
    let mantissa :=
      if k =? 1 then digits
      else (take 1 digits ++ "." ++ drop 1 digits)%string in
    (mantissa ++ "e" ++ sign ++ decimal (Z.abs e))%string.

(** The text of the positive number [m * 2 ^ e]. *)
Definition unsigned (m e : Z) : string :=
  let n := magnitude m e in
  let '(s, t) := shortest 17 m e n 1 in
  let '(s', t') := stripZeros 20 s t in
  let digits := decimal s' in
  layout digits (t' + Z.of_nat (String.length digits)).

Definition toString (x : num) : string :=
  match x with
  | NotANumber => "NaN"
  | Infinite negative => if negative then "-Infinity" else "Infinity"
  | Finite negative m e =>
      if m =? 0 then "0"
      else if negative then ("-" ++ unsigned m e)%string else unsigned m e
  end.

Definition finite (x : num) : bool :=
  match x with
  | Finite _ _ _ => true
  | _ => false
  end.

#[export] Instance numbers : JSNumber := {
  number := num;
  NaN := NotANumber;
  StringToNumber := ofString;
  NumberToString := toString;
  isFinite := finite;
  NumberToString_NaN := eq_refl;
  isFinite_NaN := eq_refl
}.

End Double.

(** ** Values and objects *)

(** A dropdown option as the page functions return it:
    [{ name: option.text, value: option.value }]. *)
Record SelectOption : Type := { name : string; value : string }.

Section Values.

Context {N : JSNumber}.

(** The values a field of a record holds: the table function produces
    strings, numbers and [undefined], and the serializer also provides for
    [null].  The last two are what a plain object inherits: the built-in
    function of a name, and the prototype object itself. *)
Inductive jsValue : Type :=
| VUndefined
| VNull
| VString (s : string)
| VNumber (n : number)
| VFunction (name : string)
| VObject.

(** A plain object: its own properties in the order [Object.keys] lists
    them, each name at most once. *)
Definition record : Type := list (string * jsValue).

Definition keys (r : record) : list string := map fst r.

(** The methods that a plain object inherits from [Object.prototype]. *)
Definition prototypeMethods : list string :=
  ["hasOwnProperty"; "isPrototypeOf"; "propertyIsEnumerable";
   "toLocaleString"; "toString"; "valueOf"; "__defineGetter__";
   "__defineSetter__"; "__lookupGetter__"; "__lookupSetter__"].

(** What a plain object holds under a name that is not one of its own:
    the function [Object] under [constructor], a method under its name, the
    prototype under [__proto__], and [undefined] under any other name. *)
Definition inherited (header : string) : jsValue :=
  if String.eqb header "constructor" then VFunction "Object"
  else if existsb (String.eqb header) prototypeMethods then VFunction header
  else if String.eqb header "__proto__" then VObject
  else VUndefined.

(** [row[header]]: the value of the own property of that name, and what
    the object inherits when it has none. *)
Fixpoint getProp (row : record) (header : string) : jsValue :=
  match row with
  | [] => inherited header
  | (k, v) :: rest => if String.eqb k header then v else getProp rest header
  end.

(** ** [convertToCsv] *)

(** The callback of [headers.map] in the row loop, applied to [row[header]]. *)
Definition csvValue (v : jsValue) : jsValue :=
  match v with
  | VString s =>
      let value := replaceQuotes s in
      if includes comma value || includes newline value
      then VString (quoted value)
      else VString value
  | VNull | VUndefined => VString EmptyString
  | VNumber n => VNumber n
  | VFunction f => VFunction f
  | VObject => VObject
  end.

(** What [Array.prototype.join] prints for one element: nothing for
    [undefined] and [null], the string itself, the number in digits, the
    source text of a built-in function, and the tag of a plain object. *)
Definition joinElement (v : jsValue) : string :=
  match v with
  | VUndefined | VNull => EmptyString
  | VString s => s
  | VNumber n => NumberToString n
  | VFunction f => ("function " ++ f ++ "() { [native code] }")%string
  | VObject => "[object Object]"
  end.

Definition joinValues (sep : string) (l : list jsValue) : string :=
  join sep (map joinElement l).

(** One pass of the row loop: the line pushed for [row]. *)
Definition csvRow (headers : list string) (row : record) : string :=
  let values := map (fun header => csvValue (getProp row header)) headers in
  joinValues (str1 comma) values.

(** [data] is an array; the first test of the function also answers the
    empty string to an argument that is [null] or [undefined], which the
    script never passes. *)
Definition convertToCsv (data : list record) : string :=
  match data with
  | [] => EmptyString
  | first :: _ =>
      let headers := keys first in
      let csvRows := [join (str1 comma) (map quoted headers)] in
      let csvRows :=
        fold_left (fun rows row => rows ++ [csvRow headers row]) data csvRows in
      join (str1 newline) csvRows
  end.

(** ** The page functions handed to [page.evaluate] *)

(** The filter of the college dropdown: the option whose value is the empty
    string is the default one. *)
Definition collegeOptions (options : list SelectOption) : list SelectOption :=
  filter (fun opt => negb (String.eqb (value opt) EmptyString)) options.

(** The filter of the branch dropdown: there the default option has the
    value 0. *)
Definition branchOptions (options : list SelectOption) : list SelectOption :=
  filter (fun opt => negb (String.eqb (value opt) "0")) options.

(** A table row is the list of the [innerText] of its [td] cells.
    [cellText cells i] is [cells[i]?.innerText.trim()]: nothing when the row
    has no cell [i]. *)
Definition cellText (cells : list string) (i : nat) : option string :=
  option_map trim (nth_error cells i).

(** Unary plus on a trimmed cell: [undefined] becomes not-a-number. *)
Definition unaryPlus (t : option string) : jsValue :=
  match t with
  | Some s => VNumber (StringToNumber s)
  | None => VNumber NaN
  end.

Definition textValue (t : option string) : jsValue :=
  match t with
  | Some s => VString s
  | None => VUndefined
  end.

(** The object literal pushed for one row. *)
Definition makeRecord (cells : list string) : record :=
  [ ("sno", unaryPlus (cellText cells 0));
    ("hallticketno", textValue (cellText cells 1));
    ("rank", unaryPlus (cellText cells 2));
    ("name", textValue (cellText cells 3));
    ("sex", textValue (cellText cells 4));
    ("caste", textValue (cellText cells 5));
    ("region", textValue (cellText cells 6));
    ("seatcategory", textValue (cellText cells 7)) ].

(** The test on a row: [cells.length > 1]. *)
Definition hasData (cells : list string) : bool :=
  (1 <? List.length cells)%nat.

(** The table function: [rows] are the [tr] elements under the results
    table, in document order; the loop runs over the indices
    [1 .. rows.length - 1]. *)
Definition extractRecords (rows : list (list string)) : list record :=
  fold_left
    (fun records i =>
       match nth_error rows i with
       | Some cells =>
           if hasData cells then records ++ [makeRecord cells] else records
       | None => records
       end)
    (seq 1 (List.length rows - 1)) [].

(** [page.evaluate] hands the value of the page function over by value,
    as JSON does: a property that is [undefined] or a function is left
    out, a number that is not finite arrives as [null], and a string, a
    finite number and [null] arrive as they are (negative zero may arrive
    as zero, which prints alike). *)
Definition jsonValue (v : jsValue) : option jsValue :=
  match v with
  | VUndefined | VFunction _ => None
  | VNumber n => Some (if isFinite n then VNumber n else VNull)
  | VNull => Some VNull
  | VString s => Some (VString s)
  | VObject => Some VObject
  end.

Fixpoint jsonRecord (r : record) : record :=
  match r with
  | [] => []
  | (k, v) :: rest =>
      match jsonValue v with
      | Some v' => (k, v') :: jsonRecord rest
      | None => jsonRecord rest
      end
  end.

Definition byValue (records : list record) : list record :=
  map jsonRecord records.

(** The properties of the record of a row that are handed over: the
    serial number and the rank always, a text property when the row has its
    cell. *)
Definition keysHandedOver (cells : list string) : list string :=
  ["sno"]
  ++ (if (1 <? List.length cells)%nat then ["hallticketno"] else [])
  ++ ["rank"]
  ++ firstn (List.length cells - 3)
       ["name"; "sex"; "caste"; "region"; "seatcategory"].


End Values.

(** ** Names of folders and files *)

(** A path below the directory of the script, as its list of segments. *)
Definition path : Type := list string.

(** [path.resolve(dir, segment)] for a segment with no separator in it: an
    empty segment leaves the directory as it is. *)
Definition pathResolve (dir : path) (segment : string) : path :=
  if String.eqb segment EmptyString then dir else dir ++ [segment].

Definition isPlain (c : ascii) : bool :=
  let n := nat_of_ascii c in
  ((97 <=? n) && (n <=? 122) || (65 <=? n) && (n <=? 90)
   || (48 <=? n) && (n <=? 57) || (n =? 32))%nat.

(** The first replace of a folder or file name: every character that is not
    an ASCII letter, a digit or a space goes. *)
Fixpoint removeSpecial (s : string) : string :=
  match s with
  | EmptyString => EmptyString
  | String c s' =>
      if isPlain c then String c (removeSpecial s') else removeSpecial s'
  end.

(** The second replace: every run of white space becomes one underscore.
    [inRun] says that the character before was white space. *)
Fixpoint underscoreRuns (inRun : bool) (s : string) : string :=
  match s with
  | EmptyString => EmptyString
  | String c s' =>
      if isWhiteSpace c
      then if inRun then underscoreRuns true s'
           else String "_"%char (underscoreRuns true s')
      else String c (underscoreRuns false s')
  end.

Definition cleanName (s : string) : string :=
  underscoreRuns false (removeSpecial s).

(** ** The browser, the file system and the console *)

Definition TARGET_URL : string := "https://tgeapcet.nic.in/default.aspx".
Definition ua : string :=
  "Mozilla/5.0 (Linux; Android 10; K) AppleWebKit/537.36 (KHTML, like Gecko) Chrome/130.0.0.0 Mobile Safari/537.3".
Definition collegeSelector : string := "#MainContent_DropDownList1".
Definition branchSelector : string := "#MainContent_DropDownList2".
Definition submitButtonSelector : string := "#MainContent_btn_allot".
Definition resultsTableSelector : string := "table.sortable".
Definition collegeAllotmentLinkSelector : string :=
  "a[href$='college_allotment.aspx']".
Definition baseOutputFolder : path := ["2025 phase 2 data"].

(** The two pages of the script: [page] and [newPage]. *)
Inductive pageId : Type := Page | NewPage.

(** The calls the script makes on the outside world, each with the type of
    what it returns.  [QueryOptions] and [QueryRows] are the reads of the
    document that the page functions start with: the options of a dropdown
    as name and value pairs, and the rows under a table selector as the
    texts of their cells. *)
Inductive op : Type -> Type :=
| Launch : op unit
| BrowserNewPage : op unit
| SetUserAgent : pageId -> string -> op unit
| Goto : string -> op unit
| OnceTargetCreated : op unit
| AwaitNewPage : op unit
| WaitForSelector : pageId -> string -> op unit
| WaitForNavigation : pageId -> op unit
| Click : pageId -> string -> op unit
| Select : string -> string -> op unit
| QueryOptions : string -> op (list SelectOption)
| QueryRows : string -> op (list (list string))
| GoBack : op unit
| ExistsSync : path -> op bool
| MkdirSync : path -> op unit
| WriteFileSync : path -> string -> op unit
| BrowserClose : op unit.

(** A call returns or throws; of a thrown error the script only reads the
    message. *)
Inductive result (A : Type) : Type :=
| Ok (a : A)
| Throw (message : string).
Arguments Ok {A} a.
Arguments Throw {A} message.

(** The lines the script prints, one constructor for each call of
    [console.log] or [console.error], with the values the line shows. *)
Inductive message : Type :=
| MsgStarting
| MsgNavigated (url : string)
| MsgWaitingLink
| MsgClickingLink
| MsgWaitingNewPage
| MsgNewPageLoaded
| MsgExtractingColleges
| MsgFoundColleges (n : nat)
| MsgCreatedBase (dir : path)
| MsgProcessingCollege (collegeName collegeValue : string)
| MsgCreatedCollegeDir (dir : path)
| MsgSelectingCollege (collegeValue : string)
| MsgCollegeSelected
| MsgExtractingBranches
| MsgFoundBranches (n : nat) (collegeName : string)
| MsgFetchingBranch (branchName : string)
| MsgClickingSubmit
| MsgResultsLoaded
| MsgScrapingTable
| MsgScraped (n : nat) (branchName : string)
| MsgSaved (outputPath : path)
| MsgNoData (branchName : string)
| MsgGoingBack
| MsgReturned
| MsgCouldNotFetch (collegeName branchName error : string)
| MsgAttemptingBack
| MsgReturnedAfterError
| MsgFailedGoBack (error : string)
| MsgComplete
| MsgBrowserClosed
| MsgUncaught (error : string).

(** What an observer of a run sees, in order: the calls with their
    answers, and the lines printed. *)
Inductive event : Type :=
| Called {A : Type} (o : op A) (r : result A)
| ConsoleLog (m : message)
| ConsoleError (m : message).

(** How a [for ... of] body ends: it falls through to the next element or
    leaves the loop with [break]. *)
Inductive control : Type := Next | Break.

(** ** The monad of the script

    A computation runs on a state that holds the outside world and the
    events seen so far; it returns a value or throws. *)

Declare Scope js_scope.
Delimit Scope js_scope with js.

Section Crawl.

Context {N : JSNumber}.

(** The outside world: its states, and what each call does to a state and
    answers. *)
Variable W : Type.
Variable handle : forall A : Type, op A -> W -> W * result A.

Record state : Type := { world : W; trace : list event }.

Definition M (A : Type) : Type := state -> state * result A.

(** The state [s] after the events [l]. *)
Definition seen (s : state) (l : list event) : state :=
  {| world := world s; trace := trace s ++ l |}.

Definition ret {A : Type} (a : A) : M A := fun s => (s, Ok a).

Definition bind {A B : Type} (m : M A) (k : A -> M B) : M B :=
  fun s =>
    match m s with
    | (s', Ok a) => k a s'
    | (s', Throw e) => (s', Throw e)
    end.

Notation "x <- m ;; k" := (bind m (fun x => k))
  (at level 61, m at next level, right associativity) : js_scope.
Notation "m ;; k" := (bind m (fun _ => k))
  (at level 61, right associativity) : js_scope.
Local Open Scope js_scope.

(** [try { body } catch (error) { handler }]. *)
Definition tryCatch {A : Type} (body : M A) (handler : string -> M A) : M A :=
  fun s =>
    match body s with
    | (s', Ok a) => (s', Ok a)
    | (s', Throw e) => handler e s'
    end.

(** An awaited call: the world answers, the event is recorded. *)
Definition perform {A : Type} (o : op A) : M A :=
  fun s =>
    let (w', r) := handle A o (world s) in
    ({| world := w'; trace := trace s ++ [Called o r] |}, r).

Definition consoleLog (m : message) : M unit :=
  fun s => (seen s [ConsoleLog m], Ok tt).

Definition consoleError (m : message) : M unit :=
  fun s => (seen s [ConsoleError m], Ok tt).

(** [for (const x of l) { body }], where the body may [break]. *)
Fixpoint forOf {A : Type} (l : list A) (body : A -> M control) : M unit :=
  match l with
  | [] => ret tt
  | x :: rest =>
      c <- body x ;;
      match c with
      | Next => forOf rest body
      | Break => ret tt
      end
  end.

(** ** [scrapeAllotments] *)

(** The steps of the branch loop, in the order of the source.  The first
    block selects the college again, selects the branch and submits. *)
Definition submitLeaf (college branch : SelectOption) : M unit :=
  perform (Select collegeSelector (value college)) ;;
  perform (WaitForNavigation NewPage) ;;
  perform (Select branchSelector (value branch)) ;;
  consoleLog MsgClickingSubmit ;;
  perform (Click NewPage submitButtonSelector) ;;
  perform (WaitForNavigation NewPage) ;;
  consoleLog MsgResultsLoaded.

(** The wait for the results table and the table function run on the page;
    [page.evaluate] hands its records over by value. *)
Definition scrapeTable : M (list record) :=
  consoleLog MsgScrapingTable ;;
  perform (WaitForSelector NewPage resultsTableSelector) ;;
  rows <- perform (QueryRows resultsTableSelector) ;;
  ret (byValue (extractRecords rows)).

(** The file of a branch is written only for a table with records. *)
Definition saveTable (collegeDir : path) (branch : SelectOption)
    (tableData : list record) : M unit :=
  consoleLog (MsgScraped (List.length tableData) (name branch)) ;;
  if (0 <? List.length tableData)%nat
  then
    let csvData := convertToCsv tableData in
    let branchFileName := (cleanName (name branch) ++ ".csv")%string in
    let outputPath := pathResolve collegeDir branchFileName in
    perform (WriteFileSync outputPath csvData) ;;
    consoleLog (MsgSaved outputPath)
  else consoleLog (MsgNoData (name branch)).

(** [goBack] and the wait that follows it, in the [try] block and again in
    the [catch] block. *)
Definition returnToForm : M unit :=
  perform GoBack ;;
  perform (WaitForNavigation NewPage).

(** The [catch] block of the branch loop. *)
Definition recover (college branch : SelectOption) (error : string)
    : M control :=
  consoleError (MsgCouldNotFetch (name college) (name branch) error) ;;
  consoleLog MsgAttemptingBack ;;
  tryCatch
    (returnToForm ;;
     consoleLog MsgReturnedAfterError ;;
     ret Next)
    (fun goBackError =>
       consoleError (MsgFailedGoBack goBackError) ;;
       ret Break).

(** The [try] block of the branch loop. *)
Definition fetchBranch (college : SelectOption) (collegeDir : path)
    (branch : SelectOption) : M control :=
  consoleLog (MsgFetchingBranch (name branch)) ;;
  submitLeaf college branch ;;
  tableData <- scrapeTable ;;
  saveTable collegeDir branch tableData ;;
  consoleLog MsgGoingBack ;;
  returnToForm ;;
  consoleLog MsgReturned ;;
  ret Next.

(** The body of the branch loop. *)
Definition branchBody (college : SelectOption) (collegeDir : path)
    (branch : SelectOption) : M control :=
  tryCatch (fetchBranch college collegeDir branch) (recover college branch).

(** The body of the college loop. *)
Definition collegeBody (college : SelectOption) : M control :=
  consoleLog (MsgProcessingCollege (name college) (value college)) ;;
  let collegeFolderName := cleanName (name college) in
  let collegeDir := pathResolve baseOutputFolder collegeFolderName in
  isThere <- perform (ExistsSync collegeDir) ;;
  (if negb isThere
   then perform (MkdirSync collegeDir) ;;
        consoleLog (MsgCreatedCollegeDir collegeDir)
   else ret tt) ;;
  consoleLog (MsgSelectingCollege (value college)) ;;
  perform (Select collegeSelector (value college)) ;;
  perform (WaitForNavigation NewPage) ;;
  consoleLog MsgCollegeSelected ;;
  consoleLog MsgExtractingBranches ;;
  perform (WaitForSelector NewPage branchSelector) ;;
  options <- perform (QueryOptions branchSelector) ;;
  let branches := branchOptions options in
  consoleLog (MsgFoundBranches (List.length branches) (name college)) ;;
  forOf branches (branchBody college collegeDir) ;;
  ret Next.

Definition scrapeAllotments : M unit :=
  consoleLog MsgStarting ;;
  perform Launch ;;
  perform BrowserNewPage ;;
  perform (SetUserAgent Page ua) ;;
  perform (Goto TARGET_URL) ;;
  consoleLog (MsgNavigated TARGET_URL) ;;
  perform OnceTargetCreated ;;
  consoleLog MsgWaitingLink ;;
  perform (WaitForSelector Page collegeAllotmentLinkSelector) ;;
  consoleLog MsgClickingLink ;;
  perform (Click Page collegeAllotmentLinkSelector) ;;
  consoleLog MsgWaitingNewPage ;;
  perform AwaitNewPage ;;
  perform (WaitForNavigation NewPage) ;;
  perform (SetUserAgent NewPage ua) ;;
  consoleLog MsgNewPageLoaded ;;
  consoleLog MsgExtractingColleges ;;
  perform (WaitForSelector NewPage collegeSelector) ;;
  options <- perform (QueryOptions collegeSelector) ;;
  let colleges := collegeOptions options in
  consoleLog (MsgFoundColleges (List.length colleges)) ;;
  isThere <- perform (ExistsSync baseOutputFolder) ;;
  (if negb isThere
   then perform (MkdirSync baseOutputFolder) ;;
        consoleLog (MsgCreatedBase baseOutputFolder)
   else ret tt) ;;
  forOf colleges collegeBody ;;
  consoleLog MsgComplete ;;
  perform BrowserClose ;;
  consoleLog MsgBrowserClosed.

(** The last line of the script: an error that leaves [scrapeAllotments] is
    printed. *)
Definition main : M unit :=
  tryCatch scrapeAllotments (fun error => consoleError (MsgUncaught error)).

End Crawl.

Arguments world {W} s.
Arguments trace {W} s.
Arguments Build_state {W} world trace.
Arguments seen {W} s l.

(** ** What a trace shows *)

Definition logOf (e : event) : list message :=
  match e with
  | ConsoleLog m => [m]
  | _ => []
  end.

Definition errorOf (e : event) : list message :=
  match e with
  | ConsoleError m => [m]
  | _ => []
  end.

Definition writeOf (e : event) : list (path * string) :=
  match e with
  | Called (WriteFileSync p data) _ => [(p, data)]
  | _ => []
  end.

Definition tableReadOf (e : event) : list (result (list (list string))) :=
  match e with
  | Called (QueryRows _) r => [r]
  | _ => []
  end.

(** The lines printed with [console.log] and with [console.error], the
    calls of [writeFileSync] and the answers to the table function. *)
Definition logged (tr : list event) : list message := flat_map logOf tr.
Definition errors (tr : list event) : list message := flat_map errorOf tr.
Definition filesWritten (tr : list event) : list (path * string) :=
  flat_map writeOf tr.
Definition tableReads (tr : list event)
    : list (result (list (list string))) :=
  flat_map tableReadOf tr.

(** The leaves attempted: the branch loop announces each leaf it starts
    with the name of the branch, under the last college announced. *)
Fixpoint attemptsUnder (college : string) (tr : list event)
    : list (string * string) :=
  match tr with
  | [] => []
  | ConsoleLog (MsgProcessingCollege c _) :: rest => attemptsUnder c rest
  | ConsoleLog (MsgFetchingBranch b) :: rest =>
      (college, b) :: attemptsUnder college rest
  | _ :: rest => attemptsUnder college rest
  end.

Definition attempts (tr : list event) : list (string * string) :=
  attemptsUnder EmptyString tr.

(** The leaves reported as failed, as empty and as saved. *)
Definition failedOf (m : message) : list (string * string) :=
  match m with
  | MsgCouldNotFetch c b _ => [(c, b)]
  | _ => []
  end.

Definition emptyOf (m : message) : list string :=
  match m with
  | MsgNoData b => [b]
  | _ => []
  end.

Definition processedOf (m : message) : list string :=
  match m with
  | MsgProcessingCollege c _ => [c]
  | _ => []
  end.

Definition stepBackOf (e : event) : list (result unit) :=
  match e with
  | Called GoBack r => [r]
  | _ => []
  end.

(** The colleges announced, and how each [goBack] went. *)
Definition processed (tr : list event) : list string :=
  flat_map processedOf (logged tr).
Definition stepsBack (tr : list event) : list (result unit) :=
  flat_map stepBackOf tr.

Definition reportedFailed (tr : list event) : list (string * string) :=
  flat_map failedOf (errors tr).
Definition reportedEmpty (tr : list event) : list string :=
  flat_map emptyOf (logged tr).

(** The abandonment lines: the [catch] block of the branch loop prints one
    just before its [break]. *)
Definition abandonOf (m : message) : list string :=
  match m with
  | MsgFailedGoBack e => [e]
  | _ => []
  end.

Definition abandonments (tr : list event) : list string :=
  flat_map abandonOf (errors tr).

(** A stretch of a trace with no abandonment line, or with one as its last
    event. *)
Definition endsAbandoned (d : list event) : Prop :=
  abandonments d = [] \/
  exists pre e, d = pre ++ [ConsoleError (MsgFailedGoBack e)] /\
                abandonments pre = [].

(** The messages of the calls that threw. *)
Definition thrownOf (e : event) : list string :=
  match e with
  | Called _ (Throw m) => [m]
  | _ => []
  end.

Definition thrown (tr : list event) : list string := flat_map thrownOf tr.

(** ** More of what a trace shows *)

Definition closeOf (e : event) : list (result unit) :=
  match e with
  | Called BrowserClose r => [r]
  | _ => []
  end.

Definition mkdirOf (e : event) : list path :=
  match e with
  | Called (MkdirSync p) _ => [p]
  | _ => []
  end.

Definition dirCheckOf (e : event) : list (path * result bool) :=
  match e with
  | Called (ExistsSync p) r => [(p, r)]
  | _ => []
  end.

Definition clickOf (e : event) : list (pageId * string) :=
  match e with
  | Called (Click p sel) _ => [(p, sel)]
  | _ => []
  end.

Definition selectOf (e : event) : list (string * string) :=
  match e with
  | Called (Select sel v) _ => [(sel, v)]
  | _ => []
  end.

Definition optionReadOf (e : event)
    : list (string * result (list SelectOption)) :=
  match e with
  | Called (QueryOptions sel) r => [(sel, r)]
  | _ => []
  end.

Definition savedOf (m : message) : list path :=
  match m with
  | MsgSaved p => [p]
  | _ => []
  end.

(** The calls of [browser.close] with their answers, the folders made, the
    folders looked for with the answers, the clicks, the selections, the
    dropdowns read with their options and the files reported as saved. *)
Definition closes (tr : list event) : list (result unit) := flat_map closeOf tr.
Definition dirsMade (tr : list event) : list path := flat_map mkdirOf tr.
Definition dirChecks (tr : list event) : list (path * result bool) :=
  flat_map dirCheckOf tr.
Definition clicks (tr : list event) : list (pageId * string) :=
  flat_map clickOf tr.
Definition selections (tr : list event) : list (string * string) :=
  flat_map selectOf tr.
Definition optionReads (tr : list event)
    : list (string * result (list SelectOption)) :=
  flat_map optionReadOf tr.
Definition saved (tr : list event) : list path :=
  flat_map savedOf (logged tr).

(** ** Shapes of names and texts *)

(** Every character of [s] passes the test [p]. *)
Fixpoint allChars (p : ascii -> bool) (s : string) : bool :=
  match s with
  | EmptyString => true
  | String c s' => p c && allChars p s'
  end.

(** The characters of a cleaned name: ASCII letters, digits and the
    underscore. *)
Definition isWordChar (c : ascii) : bool :=
  let n := nat_of_ascii c in
  ((97 <=? n) && (n <=? 122) || (65 <=? n) && (n <=? 90)
   || (48 <=? n) && (n <=? 57) || (n =? 95))%nat.

(** The characters that the first replace of a name removes. *)
Definition isSpecial (c : ascii) : bool := negb (isPlain c).

Definition startsWith (c : ascii) (s : string) : bool :=
  match s with
  | EmptyString => false
  | String a _ => Ascii.eqb a c
  end.

(** The character [c] occurs twice in a row in [s]. *)
Fixpoint doubled (c : ascii) (s : string) : bool :=
  match s with
  | EmptyString => false
  | String a s' =>
      match s' with
      | EmptyString => false
      | String b _ => Ascii.eqb a c && Ascii.eqb b c || doubled c s'
      end
  end.

(** The property names of the object literal of the table function, those
    of them that hold text, and the header line the serializer writes for
    the eight. *)
Definition fieldNames : list string :=
  ["sno"; "hallticketno"; "rank"; "name"; "sex"; "caste"; "region";
   "seatcategory"].

Definition textFields : list string :=
  ["hallticketno"; "name"; "sex"; "caste"; "region"; "seatcategory"].

Definition headerLine : string := join (str1 comma) (map quoted fieldNames).

(** ** The files and folders of a run *)

(** The file of a branch whose table has the rows [rows]: its path in the
    folder of the college and its text. *)
Definition branchFile {N : JSNumber} (collegeDir : path)
    (branch : SelectOption) (rows : list (list string)) : path * string :=
  (pathResolve collegeDir (cleanName (name branch) ++ ".csv"),
   convertToCsv (byValue (extractRecords rows))).

(** The folder of a college, and whether a stretch of a trace shows that
    a folder is there: it was found, or it was made. *)
Definition folderOf (college : SelectOption) : path :=
  pathResolve baseOutputFolder (cleanName (name college)).

Definition folderReady (dir : path) (d : list event) : Prop :=
  In (Called (ExistsSync dir) (Ok true)) d \/
  In (Called (MkdirSync dir) (Ok tt)) d.

(** The events of a stretch of the branch loop: no folder is looked for
    or made, no dropdown is read, the browser is not closed, no college is
    announced, and every file written is the file of a branch of the list
    whose table has records. *)
Definition leafEvents {N : JSNumber} (collegeDir : path)
    (branches : list SelectOption) (d : list event) : Prop :=
  closes d = [] /\ dirsMade d = [] /\ dirChecks d = [] /\
  optionReads d = [] /\ processed d = [] /\
  Forall (fun f => exists branch rows,
                     In branch branches /\ extractRecords rows <> [] /\
                     In (Called (QueryRows resultsTableSelector) (Ok rows)) d /\
                     f = branchFile collegeDir branch rows)
         (filesWritten d).

(** The events of one pass of the college loop. *)
Definition collegeEvents {N : JSNumber} (college : SelectOption)
    (r : result control) (d : list event) : Prop :=
  closes d = [] /\ processed d = [name college] /\
  (exists answer,
      dirChecks d = [(folderOf college, answer)] /\
      dirsMade d = match answer with
                   | Ok false => [folderOf college]
                   | _ => []
                   end) /\
  match r with
  | Ok c => c = Next
  | Throw e => exists pre A (o : op A), d = pre ++ [Called o (Throw e)]
  end /\
  Forall (fun f => exists options branch rows,
                     optionReads d = [(branchSelector, Ok options)] /\
                     In branch (branchOptions options) /\
                     extractRecords rows <> [] /\
                     In (Called (QueryRows resultsTableSelector) (Ok rows)) d /\
                     folderReady (folderOf college) d /\
                     f = branchFile (folderOf college) branch rows)
         (filesWritten d).

(** A file of the college loop: the file of a college of the list and of
    an option that the stretch [d] read off a branch dropdown, with the
    records of a table that has some. *)
Definition loopFile {N : JSNumber} (colleges : list SelectOption)
    (d : list event) (f : path * string) : Prop :=
  exists college options branch rows,
    In college colleges /\
    In (branchSelector, Ok options) (optionReads d) /\
    In branch (branchOptions options) /\
    extractRecords rows <> [] /\
    f = branchFile (folderOf college) branch rows.

(** A file of a run: the college too is an option that the run read off
    the college dropdown. *)
Definition runFile {N : JSNumber} (d : list event) (f : path * string)
    : Prop :=
  exists collegeList college branchList branch rows,
    In (collegeSelector, Ok collegeList) (optionReads d) /\
    In college (collegeOptions collegeList) /\
    In (branchSelector, Ok branchList) (optionReads d) /\
    In branch (branchOptions branchList) /\
    extractRecords rows <> [] /\
    f = branchFile (folderOf college) branch rows.

(** The events of the college loop on [colleges], of which it ran the
    first [k]. *)
Definition loopEvents {N : JSNumber} (colleges : list SelectOption) (k : nat)
    (r : result unit) (d : list event) : Prop :=
  closes d = [] /\
  k <= List.length colleges /\
  processed d = map name (firstn k colleges) /\
  match r with
  | Ok _ => k = List.length colleges
  | Throw e =>
      1 <= k /\ exists pre A (o : op A), d = pre ++ [Called o (Throw e)]
  end /\
  Forall (fun p => exists college, In college colleges /\ p = folderOf college)
         (dirsMade d) /\
  Forall (fun c => exists college,
                     In college colleges /\ fst c = folderOf college)
         (dirChecks d) /\
  Forall (loopFile colleges d) (filesWritten d).

(** The events of a whole run. *)
Definition runEvents {N : JSNumber} (r : result unit) (d : list event)
    : Prop :=
  match r with
  | Ok _ =>
      exists pre,
        d = pre ++ [ConsoleLog MsgComplete; Called BrowserClose (Ok tt);
                    ConsoleLog MsgBrowserClosed] /\
        closes pre = []
  | Throw e =>
      exists pre A (o : op A), d = pre ++ [Called o (Throw e)] /\ closes pre = []
  end /\
  match optionReads d with
  | [] => processed d = []
  | (sel, Throw _) :: _ => sel = collegeSelector /\ processed d = []
  | (sel, Ok options) :: _ =>
      sel = collegeSelector /\
      exists k,
        k <= List.length (collegeOptions options) /\
        processed d = map name (firstn k (collegeOptions options)) /\
        match r with
        | Ok _ => k = List.length (collegeOptions options)
        | Throw _ => True
        end
  end /\
  Forall (fun p => p = baseOutputFolder \/ exists college, p = folderOf college)
         (dirsMade d) /\
  Forall (fun c => fst c = baseOutputFolder \/
                   exists college, fst c = folderOf college)
         (dirChecks d) /\
  Forall (runFile d) (filesWritten d).

(** ** A model of the remote site

    One outside world on which whole crawls can be run.  The site is
    described by its college dropdown; each college has its branch dropdown
    and each branch the fate of its leaf: whether the submission fails,
    what table the results view holds (none when the view has no table
    under the selector), and how each successive step back goes.  The
    browser of the model answers as the real one does: a wait for a
    selector that matches nothing throws, a query reads the dropdown or
    table that is shown.  The file system starts empty and records what is
    made and written. *)
Module Site.

Record Leaf : Type := {
  submitError : option string;
  resultsTable : option (list (list string));
  goBackErrors : list (option string)
}.

Record Branch : Type := { branchOption : SelectOption; leaf : Leaf }.

Record College : Type := {
  collegeOption : SelectOption;
  selectError : option string;
  branchList : list Branch
}.

(** What the next wait for a navigation waits for. *)
Inductive pending : Type := Idle | CollegePicked | Submitted.

Record t : Type := {
  colleges : list College;
  shownCollege : string;
  shownBranch : string;
  awaiting : pending;
  backs : nat;
  folders : list path;
  files : list (path * string)
}.

Definition start (cs : list College) : t :=
  {| colleges := cs; shownCollege := EmptyString; shownBranch := "0";
     awaiting := Idle; backs := 0; folders := []; files := [] |}.

Definition noLeaf : Leaf :=
  {| submitError := None; resultsTable := None; goBackErrors := [] |}.

Definition collegeAt (cs : list College) (v : string) : option College :=
  find (fun c => String.eqb (value (collegeOption c)) v) cs.

Definition branchesAt (cs : list College) (v : string) : list Branch :=
  match collegeAt cs v with
  | Some c => branchList c
  | None => []
  end.

Definition leafAt (cs : list College) (cv bv : string) : Leaf :=
  match find (fun b => String.eqb (value (branchOption b)) bv)
             (branchesAt cs cv) with
  | Some b => leaf b
  | None => noLeaf
  end.

Definition shownLeaf (w : t) : Leaf :=
  leafAt (colleges w) (shownCollege w) (shownBranch w).

Definition answer (e : option string) : result unit :=
  match e with
  | Some m => Throw m
  | None => Ok tt
  end.

Definition timeout : string := "Waiting for selector failed: timeout".

Definition inFolders (p : path) (l : list path) : bool :=
  existsb (fun q => if list_eq_dec string_dec p q then true else false) l.

Definition handle (A : Type) (o : op A) (w : t) : t * result A :=
  match o in op A return t * result A with
  | Select sel v =>
      if String.eqb sel collegeSelector
      then ({| colleges := colleges w; shownCollege := v; shownBranch := "0";
               awaiting := CollegePicked; backs := backs w;
               folders := folders w; files := files w |}, Ok tt)
      else ({| colleges := colleges w; shownCollege := shownCollege w;
               shownBranch := v; awaiting := awaiting w; backs := backs w;
               folders := folders w; files := files w |}, Ok tt)
  | Click NewPage _ =>
      ({| colleges := colleges w; shownCollege := shownCollege w;
          shownBranch := shownBranch w; awaiting := Submitted; backs := 0;
          folders := folders w; files := files w |}, Ok tt)
  | WaitForNavigation NewPage =>
      ({| colleges := colleges w; shownCollege := shownCollege w;
          shownBranch := shownBranch w; awaiting := Idle; backs := backs w;
          folders := folders w; files := files w |},
       match awaiting w with
       | Idle => Ok tt
       | CollegePicked =>
           match collegeAt (colleges w) (shownCollege w) with
           | Some c => answer (selectError c)
           | None => Ok tt
           end
       | Submitted => answer (submitError (shownLeaf w))
       end)
  | WaitForSelector NewPage sel =>
      (w,
       if String.eqb sel resultsTableSelector
       then match resultsTable (shownLeaf w) with
            | Some _ => Ok tt
            | None => Throw timeout
            end
       else Ok tt)
  | QueryOptions sel =>
      (w,
       Ok (if String.eqb sel collegeSelector
           then map collegeOption (colleges w)
           else map branchOption (branchesAt (colleges w) (shownCollege w))))
  | QueryRows _ =>
      (w,
       Ok match resultsTable (shownLeaf w) with
          | Some rows => rows
          | None => []
          end)
  | GoBack =>
      ({| colleges := colleges w; shownCollege := shownCollege w;
          shownBranch := shownBranch w; awaiting := Idle;
          backs := S (backs w); folders := folders w; files := files w |},
       answer (nth (backs w) (goBackErrors (shownLeaf w)) None))
  | ExistsSync p => (w, Ok (inFolders p (folders w)))
  | MkdirSync p =>
      ({| colleges := colleges w; shownCollege := shownCollege w;
          shownBranch := shownBranch w; awaiting := awaiting w;
          backs := backs w; folders := folders w ++ [p];
          files := files w |}, Ok tt)
  | WriteFileSync p data =>
      ({| colleges := colleges w; shownCollege := shownCollege w;
          shownBranch := shownBranch w; awaiting := awaiting w;
          backs := backs w; folders := folders w;
          files := files w ++ [(p, data)] |}, Ok tt)
  | Launch => (w, Ok tt)
  | BrowserNewPage => (w, Ok tt)
  | SetUserAgent _ _ => (w, Ok tt)
  | Goto _ => (w, Ok tt)
  | OnceTargetCreated => (w, Ok tt)
  | AwaitNewPage => (w, Ok tt)
  | WaitForSelector Page _ => (w, Ok tt)
  | WaitForNavigation Page => (w, Ok tt)
  | Click Page _ => (w, Ok tt)
  | BrowserClose => (w, Ok tt)
  end.





Definition offered (cs : list College) (college : SelectOption)
    : list SelectOption :=
  branchOptions (map branchOption (branchesAt cs (value college))).




(** A whole run of the script on a site, from the empty trace. *)
Definition crawl {N : JSNumber} (cs : list College)
    : state t * result unit :=
  scrapeAllotments t handle {| world := start cs; trace := [] |}.

End Site.

(** ** The example of the serializer

    The field value [He said "hi", bye] and the text it is serialized to,
    built from the quote character. *)
Definition sample : string :=
  ("He said " ++ str1 dquote ++ "hi" ++ str1 dquote ++ ", bye")%string.

Definition sampleCsv : string :=
  (str1 dquote ++ "He said " ++ str1 dquote ++ str1 dquote ++ "hi"
   ++ str1 dquote ++ str1 dquote ++ ", bye" ++ str1 dquote)%string.

(** ** A reader of delimited text *)

(** Modelled from the spec: the reader [deserialize] that the round-trip
    property names.  The repository has no reader of its files; the spec
    describes the text (section 4.4) and the typed fields of a record
    (section 3).  The reader below is the usual reader of comma-separated
    text.  Records are separated by line feeds and fields by commas.  A
    field that starts with a quote runs to its closing quote, two quotes
    inside it standing for one, and a comma, a line feed or the end of the
    text must follow it; any other field is taken as it is, up to the next
    comma or line feed.  A line feed at the very end of the text ends the
    last record and starts no other.  Text that is not of this form has no
    reading.

    A text at which a field ends: the end of the text, a comma or a line
    feed. *)
Definition atBreak (s : string) : bool :=
  match s with
  | EmptyString => true
  | String c _ => Ascii.eqb c comma || Ascii.eqb c newline
  end.

Definition startsQuote (s : string) : bool :=
  match s with
  | EmptyString => false
  | String c _ => Ascii.eqb c dquote
  end.

(** Modelled from the spec: a field in quotes from its second character
    on, and the text after its closing quote. *)
Fixpoint readQuoted (s : string) : option (string * string) :=
  match s with
  | EmptyString => None
  | String c s' =>
      if Ascii.eqb c dquote then
        match s' with
        | EmptyString => Some (EmptyString, EmptyString)
        | String c' s'' =>
            if Ascii.eqb c' dquote
            then match readQuoted s'' with
                 | Some (v, rest) => Some (String dquote v, rest)
                 | None => None
                 end
            else Some (EmptyString, s')
        end
      else match readQuoted s' with
           | Some (v, rest) => Some (String c v, rest)
           | None => None
           end
  end.

(** Modelled from the spec: a field without quotes around it, and the text
    from where it stops. *)
Fixpoint readBare (s : string) : string * string :=
  match s with
  | EmptyString => (EmptyString, EmptyString)
  | String c s' =>
      if Ascii.eqb c comma || Ascii.eqb c newline then (EmptyString, s)
      else let (v, rest) := readBare s' in (String c v, rest)
  end.

(** Modelled from the spec: one field and the text from where it stops.
    After the closing quote of a field in quotes the field must end. *)
Definition readField (s : string) : option (string * string) :=
  match s with
  | EmptyString => Some (EmptyString, EmptyString)
  | String c s' =>
      if Ascii.eqb c dquote then
        match readQuoted s' with
        | Some (v, rest) => if atBreak rest then Some (v, rest) else None
        | None => None
        end
      else Some (readBare s)
  end.

(** Modelled from the spec: the fields of one line, and the text after its
    line feed when there is one.  [fuel] bounds the number of fields. *)
Fixpoint readLine (fuel : nat) (s : string)
    : option (list string * option string) :=
  match fuel with
  | 0 => None
  | S fuel' =>
      match readField s with
      | None => None
      | Some (v, EmptyString) => Some ([v], None)
      | Some (v, String c rest) =>
          if Ascii.eqb c comma
          then match readLine fuel' rest with
               | Some (vs, after) => Some (v :: vs, after)
               | None => None
               end
          else Some ([v], Some rest)
      end
  end.

(** Modelled from the spec: the lines of a text; [fuel] bounds their
    number.  Nothing is read after the last line feed when the text ends
    there. *)
Fixpoint readLines (fuel : nat) (s : string) : option (list (list string)) :=
  match fuel with
  | 0 => None
  | S fuel' =>
      match s with
      | EmptyString => Some []
      | _ =>
          match readLine (S (String.length s)) s with
          | None => None
          | Some (fields, None) => Some [fields]
          | Some (fields, Some rest) =>
              match readLines fuel' rest with
              | Some more => Some (fields :: more)
              | None => None
              end
          end
      end
  end.

(** A text at which a line ends, and what follows the line. *)
Definition lineEnd (rest : string) : bool :=
  match rest with
  | EmptyString => true
  | String c _ => Ascii.eqb c newline
  end.

Definition afterLine (rest : string) : option string :=
  match rest with
  | EmptyString => None
  | String _ r => Some r
  end.

(** A field text [f] that is read as [v] wherever a field can end. *)
Definition fieldReads (f v : string) : Prop :=
  forall rest, atBreak rest = true -> readField (f ++ rest) = Some (v, rest).

(** A line [l] that is read as the fields [vs] wherever a line can end. *)
Definition lineReads (l : string) (vs : list string) : Prop :=
  forall tail, lineEnd tail = true ->
    readLine (S (String.length (l ++ tail))) (l ++ tail)
    = Some (vs, afterLine tail).

Section Reader.

Context {N : JSNumber}.

(** Modelled from the spec: the value of a field.  The record of the spec
    has number fields and string fields; [numeric] says which columns hold
    numbers.  An empty field of a number column is [null], any other field
    of it is the number that its text reads as, and a field of another
    column is its text. *)
Definition typed (numeric : string -> bool) (k v : string) : jsValue :=
  if numeric k
  then if String.eqb v EmptyString then VNull
       else VNumber (StringToNumber v)
  else VString v.

(** Modelled from the spec: the record of a line under the names of the
    header; a line with more or fewer fields than the header has no
    reading. *)
Fixpoint readRecord (numeric : string -> bool) (names fields : list string)
    : option record :=
  match names, fields with
  | [], [] => Some []
  | k :: names', v :: fields' =>
      match readRecord numeric names' fields' with
      | Some r => Some ((k, typed numeric k v) :: r)
      | None => None
      end
  | _, _ => None
  end.

(** Modelled from the spec: the records of the lines after the header. *)
Fixpoint readRecords (numeric : string -> bool) (names : list string)
    (rows : list (list string)) : option (list record) :=
  match rows with
  | [] => Some []
  | fields :: rows' =>
      match readRecord numeric names fields,
            readRecords numeric names rows' with
      | Some r, Some rs => Some (r :: rs)
      | _, _ => None
      end
  end.

(** Modelled from the spec: [deserialize], absent from the repository.  The
    empty text is the empty sequence; any other text is a header line and
    the lines of the records. *)
Definition deserialize (numeric : string -> bool) (text : string)
    : option (list record) :=
  match readLines (S (String.length text)) text with
  | None => None
  | Some [] => Some []
  | Some (names :: rows) => readRecords numeric names rows
  end.

(** The sequences the serializer is meant for: every record has the
    properties of the first one, in the same order, and no name twice. *)
Definition uniformSchema (data : list record) : Prop :=
  match data with
  | [] => True
  | first :: _ =>
      NoDup (keys first) /\ forall r, In r data -> keys r = keys first
  end.

Definition quoteFree (s : string) : Prop := includes dquote s = false.

(** A string that holds a quote only together with a comma or a line
    feed, so that the serializer wraps it. *)
Definition quoteSafe (s : string) : Prop :=
  includes dquote s = true -> includes comma s || includes newline s = true.

(** A number whose text is a plain numeral that reads back as the
    number. *)
Definition readsBack (n : number) : Prop :=
  NumberToString n <> EmptyString /\
  includes comma (NumberToString n) = false /\
  includes newline (NumberToString n) = false /\
  includes dquote (NumberToString n) = false /\
  StringToNumber (NumberToString n) = n.

(** The values of a column: a number that reads back or [null] in a number
    column, a string in any other. *)
Definition typedValue (numeric : bool) (v : jsValue) : Prop :=
  if numeric
  then v = VNull \/ exists n, v = VNumber n /\ readsBack n
  else exists s, v = VString s /\ quoteSafe s.

Definition conforms (numeric : string -> bool) (r : record) : Prop :=
  forall k v, In (k, v) r -> typedValue (numeric k) v.

(** A record that the serializer writes as an empty line: a single
    property that is [null] or the empty string. *)
Definition blankLine (r : record) : Prop :=
  exists k v, r = [(k, v)] /\ (v = VNull \/ v = VString EmptyString).

(** What the reader finds in the fields of a record. *)
Definition fieldTexts (ks : list string) (r : record) : list string :=
  map (fun h => joinElement (getProp r h)) ks.

End Reader.

(** ** Sites and tables of the examples *)
Module Scenario.

Import Site.

Definition pick (n v : string) : SelectOption := {| name := n; value := v |}.

Definition optA : SelectOption := pick "A" "a".
Definition optB : SelectOption := pick "B" "b".
Definition optX : SelectOption := pick "X" "x".
Definition optY : SelectOption := pick "Y" "y".
Definition optZ : SelectOption := pick "Z" "z".

(** The default options of the two dropdowns. *)
Definition noCollege : College :=
  {| collegeOption := pick "--Select--" EmptyString;
     selectError := None; branchList := [] |}.

Definition noBranch : Branch :=
  {| branchOption := pick "--Select--" "0"; leaf := noLeaf |}.

(** A header row (it has no [td] cell) and two rows of eight cells. *)
Definition twoRows : list (list string) :=
  [ [];
    ["1"; "2511A0501"; "1042"; "ASHA"; "F"; "OC"; "OU"; "CONV"];
    ["2"; "2511A0502"; "2310"; "RAVI"; "M"; "BC_B"; "AU"; "CONV"] ].

Definition headerOnly : list (list string) := [ [] ].

Definition shows (rows : list (list string)) (backs : list (option string))
    : Leaf :=
  {| submitError := None; resultsTable := Some rows; goBackErrors := backs |}.

Definition college (o : SelectOption) (l : list (SelectOption * Leaf))
    : College :=
  {| collegeOption := o; selectError := None;
     branchList :=
       noBranch
       :: map (fun p => {| branchOption := fst p; leaf := snd p |}) l |}.

(** The first scenario of the spec: [(A,X)] has two records, [(A,Y)]
    none, and the submission of [(B,Z)] fails. *)
Definition specSite : list College :=
  [ noCollege;
    college optA [(optX, shows twoRows []); (optY, shows headerOnly [])];
    college optB
      [(optZ, {| submitError := Some "Navigation timeout";
                 resultsTable := None; goBackErrors := [] |})] ].

(** After [(A,X)] the first step back fails and the second one works. *)
Definition retrySite : list College :=
  [ noCollege;
    college optA
      [(optX, shows twoRows [Some "Navigation timeout"]);
       (optY, shows headerOnly [])];
    college optB [(optZ, shows twoRows [])] ].

(** After [(A,X)] both steps back fail. *)
Definition stuckSite : list College :=
  [ noCollege;
    college optA
      [(optX, shows twoRows [Some "Navigation timeout"; Some "Still stuck"]);
       (optY, shows headerOnly [])];
    college optB [(optZ, shows twoRows [])] ].


(** The results view of [(A,X)] settles and has no table. *)
Definition noTableSite : list College :=
  [ noCollege;
    college optA
      [(optX, {| submitError := None; resultsTable := None;
                 goBackErrors := [] |})] ].

(** The page does not settle after the college [A] is selected. *)
Definition failingSite : list College :=
  [ noCollege;
    {| collegeOption := optA; selectError := Some "Navigation timeout";
       branchList :=
         [noBranch; {| branchOption := optX; leaf := shows twoRows [] |}] |};
    college optB [(optZ, shows twoRows [])] ].

Definition dirA : path := pathResolve baseOutputFolder (cleanName (name optA)).
Definition dirB : path := pathResolve baseOutputFolder (cleanName (name optB)).

(** The state in which a run on a site starts. *)
Definition fresh (cs : list College) : state Site.t :=
  {| world := start cs; trace := [] |}.

(** The leaf [(B,Z)] of the first scenario, up to the failure of its
    submission. *)
Definition submitted {N : JSNumber} : state Site.t :=
  fst (submitLeaf Site.t Site.handle optB optZ
         (seen (fresh specSite) [ConsoleLog (MsgFetchingBranch (name optZ))])).

(** The leaf [(A,X)] of the site with no table, up to the end of its
    submission. *)
Definition settled {N : JSNumber} : state Site.t :=
  fst (submitLeaf Site.t Site.handle optA optX
         (seen (fresh noTableSite) [ConsoleLog (MsgFetchingBranch (name optX))])).

(** The leaf [(A,X)] of the stuck site: the state in which its [try]
    block throws, and the state in which the step back of the [catch]
    block throws. *)
Definition thrownAt {N : JSNumber} : state Site.t :=
  fst (fetchBranch Site.t Site.handle optA dirA optX (fresh stuckSite)).

Definition stuckAt {N : JSNumber} : state Site.t :=
  fst (returnToForm Site.t Site.handle
         (seen thrownAt
            [ConsoleError (MsgCouldNotFetch (name optA) (name optX)
                             "Navigation timeout");
             ConsoleLog MsgAttemptingBack])).

(** Two sequences of one record each, over the same schema: the name is
    [null] in the first and the empty string in the second. *)
Definition nullName : list (@record Double.numbers) :=
  [ [("hallticketno", VString "2511A0501"); ("name", VNull)] ].
Definition emptyName : list (@record Double.numbers) :=
  [ [("hallticketno", VString "2511A0501"); ("name", VString EmptyString)] ].

(** A row that stops after its second cell. *)
Definition shortRow : list string := ["7"; "2511A0507"].

(** A table whose only data row stops after its second cell. *)
Definition shortTable : list (list string) := [ []; shortRow ].

(** The number columns of the record of the spec. *)
Definition numberColumn (k : string) : bool :=
  String.eqb k "sno" || String.eqb k "rank".

(** A table of two full rows: a name with quotes and a comma, a name with
    a line feed, a rank that is no numeral and an empty cell. *)
Definition mixedRows : list (list string) :=
  [ [];
    ["1"; "2511A0501"; "1042"; sample; "F"; "OC"; "OU"; "CONV"];
    ["2"; "2511A0502"; "-"; ("RAVI" ++ str1 newline ++ "KUMAR")%string; "M";
     "BC_B"; EmptyString; "CONV"] ].

(** The records handed over for that table. *)
Definition mixedData : list (@record Double.numbers) :=
  [ [("sno", VNumber (StringToNumber "1"));
     ("hallticketno", VString "2511A0501");
     ("rank", VNumber (StringToNumber "1042"));
     ("name", VString sample); ("sex", VString "F"); ("caste", VString "OC");
     ("region", VString "OU"); ("seatcategory", VString "CONV")];
    [("sno", VNumber (StringToNumber "2"));
     ("hallticketno", VString "2511A0502"); ("rank", VNull);
     ("name", VString ("RAVI" ++ str1 newline ++ "KUMAR")%string);
     ("sex", VString "M"); ("caste", VString "BC_B");
     ("region", VString EmptyString); ("seatcategory", VString "CONV")] ].

(** Sequences of one record whose name holds a quote and neither a comma
    nor a line feed: a quote among letters, a lone quote, a name in
    quotes. *)
Definition innerQuote : list (@record Double.numbers) :=
  [ [("name", VString ("a" ++ str1 dquote ++ "b"))] ].
Definition loneQuote : list (@record Double.numbers) :=
  [ [("name", VString (str1 dquote))] ].
Definition quotedName : list (@record Double.numbers) :=
  [ [("name", VString (str1 dquote ++ "hi" ++ str1 dquote))] ].

(** Two records of one column, the last one with the empty string. *)
Definition emptyLast : list (@record Double.numbers) :=
  [ [("name", VString "ASHA")]; [("name", VString EmptyString)] ].

(** The submission of [(A,X)] fails, and so does the step back after it;
    [(A,Y)] and [(B,Z)] have tables. *)
Definition lostSite : list College :=
  [ noCollege;
    college optA
      [(optX, {| submitError := Some "Navigation timeout";
                 resultsTable := None;
                 goBackErrors := [Some "Still stuck"] |});
       (optY, shows twoRows [])];
    college optB [(optZ, shows twoRows [])] ].

(** The leaf [(A,X)] of that site, up to the failure of its submission. *)
Definition lost {N : JSNumber} : state Site.t :=
  fst (submitLeaf Site.t Site.handle optA optX
         (seen (fresh lostSite) [ConsoleLog (MsgFetchingBranch (name optX))])).

End Scenario.

(** * Properties *)

#[local] Arguments Ascii.eqb : simpl never.
#[local] Arguments String.eqb : simpl never.

(** ** The serializer and the page functions *)

Lemma includes_replaceQuotes c s :
  c <> dquote -> includes c (replaceQuotes s) = includes c s.
Proof.
  intros Hc. induction s as [|d s IH]; simpl; [reflexivity|].
  destruct (Ascii.eqb d dquote) eqn:Hd; simpl.
  - apply Ascii.eqb_eq in Hd. subst d.
    assert (Ascii.eqb dquote c = false) as Hq.
    { apply Ascii.eqb_neq. congruence. }
    rewrite Hq. simpl. exact IH.
  - rewrite IH. reflexivity.
Qed.

Lemma replaceQuotes_app s1 s2 :
  replaceQuotes (s1 ++ s2) = (replaceQuotes s1 ++ replaceQuotes s2)%string.
Proof.
  induction s1 as [|c s1 IH]; simpl; [reflexivity|].
  destruct (Ascii.eqb c dquote); simpl; rewrite IH; reflexivity.
Qed.

Section Pure.

Context {N : JSNumber}.

(** C7.  The serializer escapes a string field by doubling every quote in
    it (the escaping maps a quote to two quotes, any other character to
    itself, and goes through concatenation), and it wraps the escaped value
    in quotes exactly when the string holds a comma or a line feed.  The
    field value [sample] of the spec is serialized to [sampleCsv]. *)
Theorem serializer_escaping :
  (forall s : string,
      joinElement (csvValue (VString s)) =
      if includes comma s || includes newline s
      then quoted (replaceQuotes s)
      else replaceQuotes s) /\
  (forall s1 s2 : string,
      replaceQuotes (s1 ++ s2) = (replaceQuotes s1 ++ replaceQuotes s2)%string) /\
  replaceQuotes (str1 dquote) = String dquote (str1 dquote) /\
  (forall c : ascii, c <> dquote -> replaceQuotes (str1 c) = str1 c) /\
  joinElement (csvValue (VString sample)) = sampleCsv.
Proof.
  split; [|split; [|split; [|split]]].
  - intros s. unfold csvValue.
    rewrite !includes_replaceQuotes by discriminate.
    destruct (includes comma s || includes newline s); reflexivity.
  - apply replaceQuotes_app.
  - reflexivity.
  - intros c Hc. simpl. apply Ascii.eqb_neq in Hc. rewrite Hc. reflexivity.
  - reflexivity.
Qed.

(** C9.  The college list leaves out exactly the options whose value is
    the empty string, the branch list exactly those whose value is 0.  Both
    keep the other options in the order of the dropdown (each goes through
    concatenation and keeps or drops a single option by its value alone),
    and the two rules are independent: the college list keeps an option of
    value 0, the branch list one of empty value. *)
Theorem placeholder_filters :
  (forall (options : list SelectOption) (o : SelectOption),
      In o (collegeOptions options) <->
      In o options /\ value o <> EmptyString) /\
  (forall (options : list SelectOption) (o : SelectOption),
      In o (branchOptions options) <-> In o options /\ value o <> "0") /\
  (forall l1 l2 : list SelectOption,
      collegeOptions (l1 ++ l2) = collegeOptions l1 ++ collegeOptions l2 /\
      branchOptions (l1 ++ l2) = branchOptions l1 ++ branchOptions l2) /\
  (forall o : SelectOption,
      collegeOptions [o] = (if String.eqb (value o) EmptyString then [] else [o]) /\
      branchOptions [o] = (if String.eqb (value o) "0" then [] else [o])) /\
  (forall n : string,
      collegeOptions [{| name := n; value := "0" |}] =
        [{| name := n; value := "0" |}] /\
      branchOptions [{| name := n; value := EmptyString |}] =
        [{| name := n; value := EmptyString |}]).
Proof.
  split; [|split; [|split; [|split]]].
  - intros options o. unfold collegeOptions. rewrite filter_In.
    rewrite negb_true_iff, String.eqb_neq. reflexivity.
  - intros options o. unfold branchOptions. rewrite filter_In.
    rewrite negb_true_iff, String.eqb_neq. reflexivity.
  - intros l1 l2. unfold collegeOptions, branchOptions.
    rewrite !filter_app. split; reflexivity.
  - intros o. unfold collegeOptions, branchOptions. simpl.
    destruct (String.eqb (value o) EmptyString), (String.eqb (value o) "0");
      split; reflexivity.
  - intros n. split; reflexivity.
Qed.

(** The loop of the table function, started at any row: it appends the
    records of the rows that are left. *)
Lemma extract_loop (pre post : list (list string)) (acc : list record) :
  fold_left
    (fun records i =>
       match nth_error (pre ++ post) i with
       | Some cells =>
           if hasData cells then records ++ [makeRecord cells] else records
       | None => records
       end)
    (seq (List.length pre) (List.length post)) acc
  = acc ++ map makeRecord (filter hasData post).
Proof.
  revert pre acc. induction post as [|cells post IH]; intros pre acc.
  - simpl. rewrite app_nil_r. reflexivity.
  - cbn [List.length seq fold_left].
    rewrite nth_error_app2 by lia. rewrite Nat.sub_diag. cbn [nth_error].
    specialize (IH (pre ++ [cells])).
    rewrite length_app in IH. cbn [List.length] in IH.
    rewrite Nat.add_1_r in IH. rewrite <- app_assoc in IH. cbn [app] in IH.
    rewrite IH. cbn [filter].
    destruct (hasData cells); cbn [map].
    + rewrite <- app_assoc. reflexivity.
    + reflexivity.
Qed.

Lemma extractRecords_rows (header : list string) (dataRows : list (list string)) :
  extractRecords (header :: dataRows) = map makeRecord (filter hasData dataRows).
Proof.
  unfold extractRecords.
  replace (List.length (header :: dataRows) - 1) with (List.length dataRows)
    by (cbn [List.length]; lia).
  exact (extract_loop [header] dataRows []).
Qed.

(** C6.  On a table made of a header row and data rows, the table function
    returns the records of the data rows that have more than one cell, in
    the order of the rows; the header row is skipped whatever it holds.
    When every data row has at least two cells there is one record for each
    data row. *)
Theorem extractor_rows :
  forall (header : list string) (dataRows : list (list string)),
    extractRecords (header :: dataRows) =
      map makeRecord
        (filter (fun cells => (1 <? List.length cells)%nat) dataRows) /\
    extractRecords [] = [] /\
    ((forall cells, In cells dataRows -> 2 <= List.length cells) ->
     extractRecords (header :: dataRows) = map makeRecord dataRows /\
     List.length (extractRecords (header :: dataRows)) = List.length dataRows).
Proof.
  intros header dataRows. split; [|split].
  - apply extractRecords_rows.
  - reflexivity.
  - intros Hall. rewrite extractRecords_rows.
    assert (filter hasData dataRows = dataRows) as ->.
    { induction dataRows as [|c l IH]; [reflexivity|]. cbn [filter].
      assert (hasData c = true) as ->.
      { apply Nat.ltb_lt. apply (Hall c). left. reflexivity. }
      rewrite IH; [reflexivity|]. intros x Hx. apply Hall. right. exact Hx. }
    split; [reflexivity|]. apply length_map.
Qed.



Lemma getProp_missing (row : record) (h : string) :
  ~ In h (keys row) -> getProp row h = inherited h.
Proof.
  induction row as [|[k v] row IH]; intros Hin; [reflexivity|].
  cbn [getProp]. destruct (String.eqb_spec k h) as [->|Hne].
  - destruct Hin. left. reflexivity.
  - apply IH. intros H. apply Hin. right. exact H.
Qed.




Lemma keys_handed_over (cells : list string) :
  keys (jsonRecord (makeRecord cells)) = keysHandedOver cells.
Proof.
  unfold makeRecord, keysHandedOver, cellText.
  do 8 (destruct cells as [|? cells]; [reflexivity|]).
  cbn [List.length Nat.sub nth_error option_map unaryPlus textValue
       jsonRecord jsonValue keys map fst firstn Nat.ltb Nat.leb app].
  rewrite firstn_nil. reflexivity.
Qed.


End Pure.

(** ** The branch loop and the college loop, on any browser

    What a trace shows goes through concatenation. *)

Lemma logged_app (a b : list event) : logged (a ++ b) = logged a ++ logged b.
Proof. apply flat_map_app. Qed.

Lemma errors_app (a b : list event) : errors (a ++ b) = errors a ++ errors b.
Proof. apply flat_map_app. Qed.

Lemma processed_app (a b : list event) :
  processed (a ++ b) = processed a ++ processed b.
Proof. unfold processed. rewrite logged_app. apply flat_map_app. Qed.

Lemma abandonments_app (a b : list event) :
  abandonments (a ++ b) = abandonments a ++ abandonments b.
Proof. unfold abandonments. rewrite errors_app. apply flat_map_app. Qed.

Lemma attemptsUnder_app (col : string) (a b : list event) :
  processed a = [] ->
  attemptsUnder col (a ++ b) = attemptsUnder col a ++ attemptsUnder col b.
Proof.
  revert col. induction a as [|e a IH]; intros col Hq; [reflexivity|].
  change (processed (e :: a)) with (processed ([e] ++ a)) in Hq.
  rewrite processed_app in Hq. apply app_eq_nil in Hq. destruct Hq as [He Ha].
  destruct e as [A o r|m|m]; cbn [app attemptsUnder]; auto.
  destruct m; try discriminate He; cbn [app]; try rewrite IH; auto.
Qed.

Section CrawlFacts.

Context {N : JSNumber}.
Variable W : Type.
Variable handle : forall A : Type, op A -> W -> W * result A.

(** A run of the script is followed call by call: each call either returns
    or throws, and each table read has records or none. *)
Ltac unfold_script :=
  cbv beta iota zeta delta
    [branchBody fetchBranch recover submitLeaf scrapeTable saveTable
     returnToForm tryCatch bind ret perform consoleLog consoleError seen];
  cbn [world trace].

Ltac answer_call :=
  match goal with
  | H : handle ?A ?o ?w = _ |- context [handle ?A ?o ?w] => rewrite H
  | |- context [handle ?A ?o ?w] =>
      let w' := fresh "w" in
      let a := fresh "a" in
      let e := fresh "e" in
      let H := fresh "Hcall" in
      destruct (handle A o w) as [w' [a|e]] eqn:H
  end.

Ltac split_records :=
  match goal with
  | |- context [extractRecords ?rows] =>
      let Hx := fresh "Hrecords" in
      destruct (extractRecords rows) eqn:Hx;
      cbn [byValue map List.length Nat.ltb Nat.leb]
  end.

Ltac run_script :=
  unfold_script;
  repeat (first [ answer_call | split_records ]; unfold_script).

Ltac trace_facts :=
  repeat rewrite <- app_assoc; cbn [app];
  repeat first
    [ reflexivity
    | discriminate
    | match goal with
      | |- _ /\ _ => split
      | |- exists d, ?t ++ _ = ?t ++ d /\ _ => eexists; split; [reflexivity|]
      | |- forall _, _ => intro
      | H : (_, _) = (_, _) |- _ => inversion H; clear H; subst
      end ].

(** C4 (as amended).  When the submission of a leaf throws, the [catch]
    block of the branch loop takes the error: the leaf is reported as failed
    under its college and branch names, no table is read and no file is
    written, and [goBack] is called once.  The body of the loop never
    throws.  When [goBack] and the wait after it return, the loop goes on
    with the next branch.  When either of them throws, the loop ends there,
    normally: the branches that follow are not run, and the script goes on
    after the loop. *)
Theorem submit_error_is_caught :
  forall (college : SelectOption) (collegeDir : path)
         (branch : SelectOption) (rest : list SelectOption)
         (s s1 : state W) (e : string),
    submitLeaf W handle college branch
      (seen s [ConsoleLog (MsgFetchingBranch (name branch))]) = (s1, Throw e) ->
    let body := branchBody W handle college collegeDir in
    let report :=
      [ConsoleError (MsgCouldNotFetch (name college) (name branch) e);
       ConsoleLog MsgAttemptingBack] in
    (exists d,
        trace (fst (body branch s)) = trace s ++ d /\
        tableReads d = [] /\ filesWritten d = [] /\
        reportedFailed d = [(name college, name branch)] /\
        stepsBack d = [snd (handle unit GoBack (world s1))]) /\
    match handle unit GoBack (world s1) with
    | (w2, Ok a) =>
        match handle unit (WaitForNavigation NewPage) w2 with
        | (w3, Ok a') =>
            let s4 :=
              {| world := w3;
                 trace := trace s1 ++ report
                          ++ [Called GoBack (Ok a);
                              Called (WaitForNavigation NewPage) (Ok a');
                              ConsoleLog MsgReturnedAfterError] |} in
            body branch s = (s4, Ok Next) /\
            forOf W (branch :: rest) body s = forOf W rest body s4
        | (w3, Throw e') =>
            let s4 :=
              {| world := w3;
                 trace := trace s1 ++ report
                          ++ [Called GoBack (Ok a);
                              Called (WaitForNavigation NewPage) (Throw e');
                              ConsoleError (MsgFailedGoBack e')] |} in
            body branch s = (s4, Ok Break) /\
            forOf W (branch :: rest) body s = (s4, Ok tt)
        end
    | (w2, Throw e') =>
        let s4 :=
          {| world := w2;
             trace := trace s1 ++ report
                      ++ [Called GoBack (Throw e');
                          ConsoleError (MsgFailedGoBack e')] |} in
        body branch s = (s4, Ok Break) /\
        forOf W (branch :: rest) body s = (s4, Ok tt)
    end.
Proof.
  intros college collegeDir branch rest [w tr] s1 e. cbv zeta.
  cbn [forOf]. set (k := forOf W rest _). revert s1.
  run_script; intros s1 Hs; inversion Hs; subst; clear Hs;
    cbn [world trace]; run_script; cbn [fst snd trace];
    repeat rewrite <- app_assoc; cbn [app];
    (split; [eexists; split; [reflexivity|]; repeat split|]);
    split; reflexivity.
Qed.

Ltac give_prefix :=
  match goal with
  | |- exists pre e, ?l = pre ++ [ConsoleError (MsgFailedGoBack e)] /\ _ =>
      exists (removelast l); eexists; split; [reflexivity|]
  end.

(** The body of the branch loop never throws.  It announces its leaf once
    and no college; when it ends with [break], the abandonment line is its
    last event, and otherwise it prints none. *)
Lemma branchBody_summary (college : SelectOption) (collegeDir : path)
    (branch : SelectOption) (s : state W) :
  exists s' c d,
    branchBody W handle college collegeDir branch s = (s', Ok c) /\
    trace s' = trace s ++ d /\
    processed d = [] /\
    (forall col, attemptsUnder col d = [(col, name branch)]) /\
    match c with
    | Next => abandonments d = []
    | Break =>
        exists pre e, d = pre ++ [ConsoleError (MsgFailedGoBack e)] /\
                      abandonments pre = []
    end.
Proof.
  destruct s as [w tr].
  run_script; do 3 eexists; (split; [reflexivity|]);
    cbn [trace]; repeat rewrite <- app_assoc; cbn [app];
    (split; [reflexivity|]); (split; [reflexivity|]);
    (split; [reflexivity|]); first [reflexivity | give_prefix; reflexivity].
Qed.

(** C8.  The serializer returns the empty string on the empty sequence.
    In the body of the branch loop a file is written only after a table
    read that gave at least one record, and then it is the file of the
    branch with the serialized records, as the page handed them over; a
    table read that gave no record is reported as empty and writes nothing,
    and so does a leaf whose table was never read. *)
Theorem file_only_for_records :
  convertToCsv [] = EmptyString /\
  forall (college : SelectOption) (collegeDir : path)
         (branch : SelectOption) (s : state W),
    exists d,
      trace (fst (branchBody W handle college collegeDir branch s))
        = trace s ++ d /\
      match tableReads d with
      | [Ok rows] =>
          match extractRecords rows with
          | [] => filesWritten d = [] /\ reportedEmpty d = [name branch]
          | tableData =>
              filesWritten d =
                [(pathResolve collegeDir (cleanName (name branch) ++ ".csv"),
                  convertToCsv (byValue tableData))] /\
              reportedEmpty d = []
          end
      | _ => filesWritten d = [] /\ reportedEmpty d = []
      end.
Proof.
  split; [reflexivity|].
  intros college collegeDir branch [w tr].
  run_script; cbn [fst trace]; repeat rewrite <- app_assoc; cbn [app];
    (eexists; split; [reflexivity|]);
    cbn [tableReads flat_map tableReadOf app];
    try match goal with H : extractRecords _ = _ |- _ => rewrite H end;
    split; reflexivity.
Qed.

(** C2 (as amended).  After a submission that settled, a wait for the
    results table that throws (as it does when the view has no table)
    sends the leaf to the [catch] block: the table function is not run,
    nothing is written, the leaf is reported as failed and not as empty,
    and the step back is tried.  When the wait succeeds and the table
    function finds no record, the leaf is reported as empty and nothing is
    written; it is not reported as failed unless a later call throws. *)
Theorem missing_table_fails_leaf :
  forall (college : SelectOption) (collegeDir : path)
         (branch : SelectOption) (s s1 : state W),
    submitLeaf W handle college branch
      (seen s [ConsoleLog (MsgFetchingBranch (name branch))]) = (s1, Ok tt) ->
    exists d,
      trace (fst (branchBody W handle college collegeDir branch s))
        = trace s ++ d /\
      match handle unit (WaitForSelector NewPage resultsTableSelector)
                   (world s1) with
      | (_, Throw e) =>
          tableReads d = [] /\ filesWritten d = [] /\ reportedEmpty d = [] /\
          reportedFailed d = [(name college, name branch)] /\
          In MsgAttemptingBack (logged d) /\ stepsBack d <> []
      | (w2, Ok _) =>
          forall (rows : list (list string)) (w3 : W),
            handle _ (QueryRows resultsTableSelector) w2 = (w3, Ok rows) ->
            extractRecords rows = [] ->
            tableReads d = [Ok rows] /\ filesWritten d = [] /\
            reportedEmpty d = [name branch] /\
            (thrown d = [] -> reportedFailed d = [])
      end.
Proof.
  intros college collegeDir branch [w tr] s1. revert s1.
  run_script; intros s1 Hs; inversion Hs; subst; clear Hs;
    cbn [fst trace world]; repeat rewrite <- app_assoc; cbn [app];
    (eexists; split; [reflexivity|]);
    repeat match goal with
      | H : handle ?A ?o ?w = _ |- context [handle ?A ?o ?w] => rewrite H
      end;
    try (intros rows w' Hq Hr; inversion Hq; subst; clear Hq;
         try congruence);
    cbn; repeat split; try discriminate; auto 10.
Qed.

(** The branch loop never throws either, and the leaves it attempts are
    the first ones of its list. *)
Lemma branchLoop_summary (college : SelectOption) (collegeDir : path)
    (branches : list SelectOption) (s : state W) :
  exists s' d,
    forOf W branches (branchBody W handle college collegeDir) s = (s', Ok tt) /\
    trace s' = trace s ++ d /\
    processed d = [] /\
    (exists k, k <= List.length branches /\
       forall col, attemptsUnder col d =
                   map (fun b => (col, name b)) (firstn k branches)) /\
    (abandonments d = [] \/
     exists pre e, d = pre ++ [ConsoleError (MsgFailedGoBack e)] /\
                   abandonments pre = []).
Proof.
  revert s. induction branches as [|b rest IH]; intros s.
  - exists s, []. cbn [forOf ret]. rewrite app_nil_r.
    repeat split; auto. exists 0. split; [lia|]. reflexivity.
  - destruct (branchBody_summary college collegeDir b s)
      as (s1 & c & d1 & Hrun & Htr & Hq & Hatt & Hab).
    cbn [forOf]. unfold bind at 1. rewrite Hrun. destruct c.
    + destruct (IH s1) as (s2 & d2 & Hrun2 & Htr2 & Hq2 & (k & Hk & Hatt2) & Hab2).
      exists s2, (d1 ++ d2). rewrite Hrun2, Htr2, Htr, app_assoc.
      split; [reflexivity|]. split; [reflexivity|]. split.
      { rewrite processed_app, Hq, Hq2. reflexivity. }
      split.
      { exists (S k). split; [cbn [List.length]; lia|]. intros col.
        rewrite attemptsUnder_app by exact Hq.
        rewrite Hatt, Hatt2. reflexivity. }
      destruct Hab2 as [Hnone|(pre & e & Hd2 & Hpre)].
      * left. rewrite abandonments_app, Hab, Hnone. reflexivity.
      * right. exists (d1 ++ pre), e. subst d2. rewrite app_assoc.
        split; [reflexivity|]. rewrite abandonments_app, Hab, Hpre. reflexivity.
    + exists s1, d1. cbn [ret].
      split; [reflexivity|]. split; [exact Htr|]. split; [exact Hq|]. split.
      { exists 1. split; [cbn [List.length]; lia|]. intros col.
        rewrite Hatt. reflexivity. }
      right. exact Hab.
Qed.

Ltac unfold_college :=
  cbv beta iota zeta delta
    [collegeBody bind ret perform consoleLog consoleError seen];
  cbn [world trace].

Lemma recover_eq (college branch : SelectOption) (e : string) (s : state W) :
  recover W handle college branch e s =
    match returnToForm W handle
            (seen s [ConsoleError (MsgCouldNotFetch (name college) (name branch) e);
                     ConsoleLog MsgAttemptingBack]) with
    | (s3, Ok _) => (seen s3 [ConsoleLog MsgReturnedAfterError], Ok Next)
    | (s3, Throw e') => (seen s3 [ConsoleError (MsgFailedGoBack e')], Ok Break)
    end.
Proof.
  destruct s as [w tr].
  unfold recover, tryCatch, bind, consoleError, consoleLog, ret, seen.
  cbn [world trace]. rewrite <- app_assoc. cbn [app].
  destruct (returnToForm W handle _) as [s3 [[]|e']]; reflexivity.
Qed.

Lemma endsAbandoned_after (front d : list event) :
  abandonments front = [] -> endsAbandoned d -> endsAbandoned (front ++ d).
Proof.
  intros Hf [Hnone|(pre & e & Hd & Hpre)].
  - left. rewrite abandonments_app, Hf, Hnone. reflexivity.
  - right. exists (front ++ pre), e. subst d. rewrite app_assoc.
    split; [reflexivity|]. rewrite abandonments_app, Hf, Hpre. reflexivity.
Qed.

Ltac front_of l d :=
  lazymatch l with
  | d => constr:(@nil event)
  | ?x :: ?l' => let f := front_of l' d in constr:(x :: f)
  end.

(** The body of the college loop never ends with [break], and an
    abandonment line can only be its last event. *)
Lemma collegeBody_summary (college : SelectOption) (s0 : state W) :
  exists sEnd r d,
    collegeBody W handle college s0 = (sEnd, r) /\
    trace sEnd = trace s0 ++ d /\
    (forall c, r = Ok c -> c = Next) /\
    endsAbandoned d /\
    (r = Ok Next \/ abandonments d = []).
Proof.
  destruct s0 as [w0 tr0].
  unfold_college.
  repeat (first
    [ answer_call
    | match goal with
      | |- context [negb ?b] => is_var b; destruct b; cbn [negb]
      end ];
    unfold_college);
  try (do 3 eexists; (split; [reflexivity|]); cbn [trace];
       repeat rewrite <- app_assoc; cbn [app]; (split; [reflexivity|]);
       split; [discriminate|split; [left; reflexivity|right; reflexivity]]).
  all: match goal with
       | |- context [forOf W ?bs ?body ?st] =>
           destruct (branchLoop_summary college
                       (pathResolve baseOutputFolder (cleanName (name college)))
                       bs st)
             as (s2 & d2 & Hloop & Htr2 & _ & _ & Hab);
           rewrite Hloop
       end.
  all: do 3 eexists; (split; [reflexivity|]); rewrite Htr2; cbn [trace];
       repeat rewrite <- app_assoc; cbn [app]; (split; [reflexivity|]);
       (split; [intros c Hc; inversion Hc; reflexivity|]);
       (split; [|left; reflexivity]).
  all: match goal with
       | |- endsAbandoned ?l =>
           let f := front_of l d2 in
           change (endsAbandoned (f ++ d2));
           apply endsAbandoned_after; [reflexivity|exact Hab]
       end.
Qed.

(** C5 (as amended).  When the [try] block of a leaf throws and the step
    back of the [catch] block throws too, the branch loop ends there: the
    branches after this leaf are never attempted, and the last event of the
    loop is the abandonment line.  In the college loop an abandonment line
    is always the last event of its college, whose body ends normally, and
    the loop goes on with the next college. *)
Theorem failed_recovery_abandons_college :
  forall (college : SelectOption) (collegeDir : path)
         (branch : SelectOption) (rest : list SelectOption)
         (s s1 s3 : state W) (e e' : string),
    fetchBranch W handle college collegeDir branch s = (s1, Throw e) ->
    returnToForm W handle
      (seen s1 [ConsoleError (MsgCouldNotFetch (name college) (name branch) e);
                ConsoleLog MsgAttemptingBack]) = (s3, Throw e') ->
    forOf W (branch :: rest) (branchBody W handle college collegeDir) s
      = (seen s3 [ConsoleError (MsgFailedGoBack e')], Ok tt) /\
    forall (colleges : list SelectOption) (s0 sEnd : state W)
           (r : result control) (d : list event) (e2 : string),
      collegeBody W handle college s0 = (sEnd, r) ->
      trace sEnd = trace s0 ++ d ->
      In e2 (abandonments d) ->
      (exists pre, d = pre ++ [ConsoleError (MsgFailedGoBack e2)]) /\
      r = Ok Next /\
      forOf W (college :: colleges) (collegeBody W handle) s0
        = forOf W colleges (collegeBody W handle) sEnd.
Proof.
  intros college collegeDir branch rest s s1 s3 e e' Htry Hback. split.
  - cbn [forOf]. unfold bind at 1, branchBody, tryCatch. rewrite Htry.
    rewrite recover_eq, Hback. reflexivity.
  - clear. intros colleges s0 sEnd r d e2 Hrun Htr Hin.
    destruct (collegeBody_summary college s0)
      as (sEnd' & r' & d' & Hrun' & Htr' & _ & Hab & Hr).
    rewrite Hrun in Hrun'. inversion Hrun'; subst sEnd' r'; clear Hrun'.
    rewrite Htr in Htr'. apply app_inv_head in Htr'. subst d'.
    destruct Hr as [Hr|Hnone]; [|rewrite Hnone in Hin; destruct Hin].
    destruct Hab as [Hnone|(pre & e3 & Hd & Hpre)];
      [rewrite Hnone in Hin; destruct Hin|].
    subst d. rewrite abandonments_app, Hpre in Hin. cbn in Hin.
    destruct Hin as [He|[]]. subst e3.
    split; [exists pre; reflexivity|]. split; [exact Hr|].
    cbn [forOf]. unfold bind at 1. rewrite Hrun, Hr. reflexivity.
Qed.

End CrawlFacts.

(** ** The reader reads back what the serializer wrote *)

Lemma append_assoc (a b c : string) : ((a ++ b) ++ c = a ++ (b ++ c))%string.
Proof. induction a as [|x a IH]; simpl; [reflexivity|]. rewrite IH. reflexivity. Qed.

Lemma append_empty (a : string) : (a ++ EmptyString)%string = a.
Proof. induction a as [|x a IH]; simpl; [reflexivity|]. rewrite IH. reflexivity. Qed.

Lemma length_append (a b : string) :
  String.length (a ++ b) = String.length a + String.length b.
Proof. induction a as [|x a IH]; simpl; [reflexivity|]. rewrite IH. reflexivity. Qed.

Lemma atBreak_no_quote (s : string) : atBreak s = true -> startsQuote s = false.
Proof.
  destruct s as [|c s]; [reflexivity|]. cbn [atBreak startsQuote].
  intros H. apply orb_true_iff in H.
  destruct H as [H|H]; apply Ascii.eqb_eq in H; subst c; reflexivity.
Qed.

Lemma includes_cons (c d : ascii) (s : string) :
  includes c (String d s) = false ->
  Ascii.eqb d c = false /\ includes c s = false.
Proof. cbn [includes]. intros H. apply orb_false_iff in H. exact H. Qed.

Lemma replaceQuotes_plain (s : string) :
  includes dquote s = false -> replaceQuotes s = s.
Proof.
  induction s as [|c s IH]; intros H; [reflexivity|].
  apply includes_cons in H. destruct H as [Hc Hs].
  cbn [replaceQuotes]. rewrite Hc, (IH Hs). reflexivity.
Qed.

Lemma readBare_plain (v rest : string) :
  includes comma v = false -> includes newline v = false ->
  atBreak rest = true ->
  readBare (v ++ rest) = (v, rest).
Proof.
  intros Hc Hn Hrest. induction v as [|c v IH]; cbn [append].
  - destruct rest as [|c r]; [reflexivity|]. cbn [readBare].
    cbn [atBreak] in Hrest. rewrite Hrest. reflexivity.
  - apply includes_cons in Hc. destruct Hc as [Hc1 Hc2].
    apply includes_cons in Hn. destruct Hn as [Hn1 Hn2].
    cbn [readBare]. rewrite Hc1, Hn1. cbn [orb].
    rewrite (IH Hc2 Hn2). reflexivity.
Qed.

Lemma readQuoted_escaped (v rest : string) :
  startsQuote rest = false ->
  readQuoted (replaceQuotes v ++ String dquote rest) = Some (v, rest).
Proof.
  intros Hrest. induction v as [|c v IH]; cbn [replaceQuotes append].
  - cbn [readQuoted]. change (Ascii.eqb dquote dquote) with true. cbv iota.
    destruct rest as [|c r]; [reflexivity|].
    cbn [startsQuote] in Hrest. rewrite Hrest. reflexivity.
  - destruct (Ascii.eqb c dquote) eqn:Hq; cbn [append readQuoted].
    + change (Ascii.eqb dquote dquote) with true. cbv iota.
      rewrite IH. apply Ascii.eqb_eq in Hq. subst c. reflexivity.
    + rewrite Hq, IH. reflexivity.
Qed.

Lemma wrapped_reads (v : string) : fieldReads (quoted (replaceQuotes v)) v.
Proof.
  intros rest Hrest. unfold quoted, str1. cbn [append].
  rewrite append_assoc. cbn [append readField].
  change (Ascii.eqb dquote dquote) with true. cbv iota.
  rewrite readQuoted_escaped by (apply atBreak_no_quote; exact Hrest).
  rewrite Hrest. reflexivity.
Qed.

Lemma plain_reads (v : string) :
  includes comma v = false -> includes newline v = false ->
  includes dquote v = false -> fieldReads v v.
Proof.
  intros Hc Hn Hq rest Hrest.
  destruct v as [|c v].
  - cbn [append]. destruct rest as [|c r]; [reflexivity|].
    cbn [readField]. cbn [atBreak] in Hrest.
    assert (Ascii.eqb c dquote = false) as ->.
    { apply orb_true_iff in Hrest.
      destruct Hrest as [H|H]; apply Ascii.eqb_eq in H; subst c; reflexivity. }
    cbn [readBare]. rewrite Hrest. reflexivity.
  - cbn [append readField].
    destruct (includes_cons _ _ _ Hq) as [Hq1 _]. rewrite Hq1.
    change (String c (v ++ rest)) with (String c v ++ rest)%string.
    rewrite readBare_plain by assumption. reflexivity.
Qed.

Lemma name_reads (k : string) : includes dquote k = false -> fieldReads (quoted k) k.
Proof.
  intros Hq. rewrite <- (replaceQuotes_plain k Hq) at 1. apply wrapped_reads.
Qed.

Section ReaderProofs.

Context {N : JSNumber}.

Lemma value_reads (numeric : bool) (v : jsValue) :
  typedValue numeric v ->
  fieldReads (joinElement (csvValue v)) (joinElement v).
Proof.
  destruct numeric; cbn [typedValue].
  - intros [->|(n & -> & Hne & Hc & Hn & Hq & _)].
    + apply plain_reads; reflexivity.
    + cbn [csvValue joinElement]. apply plain_reads; assumption.
  - intros (s & -> & Hsafe). unfold csvValue.
    rewrite !includes_replaceQuotes by discriminate.
    destruct (includes comma s || includes newline s) eqn:Hw;
      cbn [joinElement].
    + apply wrapped_reads.
    + assert (Hq : includes dquote s = false).
      { destruct (includes dquote s) eqn:Hq; [|reflexivity].
        rewrite (Hsafe Hq) in Hw. discriminate. }
      apply orb_false_iff in Hw. destruct Hw as [Hc Hn].
      rewrite (replaceQuotes_plain s Hq). apply plain_reads; assumption.
Qed.

Lemma value_typed (numeric : string -> bool) (k : string) (v : jsValue) :
  typedValue (numeric k) v -> typed numeric k (joinElement v) = v.
Proof.
  unfold typed. destruct (numeric k); cbn [typedValue].
  - intros [->|(n & -> & Hne & _ & _ & _ & Hback)]; [reflexivity|].
    cbn [joinElement].
    destruct (String.eqb_spec (NumberToString n) EmptyString) as [H|_];
      [contradiction|].
    rewrite Hback. reflexivity.
  - intros (s & -> & _). reflexivity.
Qed.

Lemma join_length (c : ascii) (l : list string) :
  List.length l <= S (String.length (join (str1 c) l)).
Proof.
  induction l as [|x l IH]; [cbn; lia|].
  destruct l as [|y l]; [cbn; lia|].
  cbn [join List.length] in *. rewrite !length_append. cbn [str1 String.length].
  lia.
Qed.

Lemma join_cons (sep x y : string) (l : list string) :
  join sep (x :: y :: l) = (x ++ sep ++ join sep (y :: l))%string.
Proof. reflexivity. Qed.

Lemma lineEnd_atBreak (tail : string) : lineEnd tail = true -> atBreak tail = true.
Proof.
  destruct tail as [|c r]; [reflexivity|]. cbn [lineEnd atBreak].
  intros ->. apply orb_true_r.
Qed.

(** A line of fields is read field by field. *)
Lemma readLine_fields (fs vs : list string) :
  Forall2 fieldReads fs vs -> fs <> [] ->
  forall (fuel : nat) (tail : string),
    lineEnd tail = true -> List.length fs <= fuel ->
    readLine fuel (join (str1 comma) fs ++ tail) = Some (vs, afterLine tail).
Proof.
  induction 1 as [|f v fs vs Hf Hrest IH]; intros Hne fuel tail Htail Hfuel;
    [congruence|].
  destruct fuel as [|fuel]; [cbn [List.length] in Hfuel; lia|].
  destruct Hrest as [|f2 v2 fs vs Hf2 Hrest].
  - cbn [join readLine].
    rewrite (Hf tail (lineEnd_atBreak tail Htail)).
    destruct tail as [|c r]; [reflexivity|]. cbn [lineEnd] in Htail.
    apply Ascii.eqb_eq in Htail. subst c.
    change (Ascii.eqb newline comma) with false. reflexivity.
  - rewrite join_cons, !append_assoc. cbn [readLine].
    unfold str1 at 1. cbn [append].
    rewrite (Hf (String comma (join (str1 comma) (f2 :: fs) ++ tail)))
      by reflexivity.
    change (Ascii.eqb comma comma) with true. cbv iota.
    rewrite IH; [reflexivity|discriminate|exact Htail|].
    cbn [List.length] in *. lia.
Qed.

Lemma fields_lineReads (fs vs : list string) :
  Forall2 fieldReads fs vs -> fs <> [] ->
  lineReads (join (str1 comma) fs) vs.
Proof.
  intros Hall Hne tail Htail. apply readLine_fields; auto.
  etransitivity; [apply (join_length comma)|].
  rewrite length_append. lia.
Qed.

(** The lines of a text are read line by line, when the last one is not
    empty. *)
Lemma readLines_lines (ls : list string) (vss : list (list string)) :
  Forall2 lineReads ls vss -> ls <> [] -> last ls EmptyString <> EmptyString ->
  forall fuel : nat,
    List.length ls <= fuel ->
    readLines fuel (join (str1 newline) ls) = Some vss.
Proof.
  induction 1 as [|l vs ls vss Hl Hrest IH]; intros Hne Hlast fuel Hfuel;
    [congruence|].
  destruct fuel as [|fuel]; [cbn [List.length] in Hfuel; lia|].
  destruct Hrest as [|l2 vs2 ls vss Hl2 Hrest].
  - cbn [join readLines]. cbn [last] in Hlast.
    specialize (Hl EmptyString eq_refl). rewrite append_empty in Hl.
    destruct l as [|c l]; [congruence|]. rewrite Hl. reflexivity.
  - rewrite join_cons. unfold str1 at 1. cbn [append].
    specialize (Hl (String newline (join (str1 newline) (l2 :: ls))) eq_refl).
    cbn [readLines].
    destruct (l ++ String newline (join (str1 newline) (l2 :: ls)))%string
      as [|c t] eqn:Htext.
    { destruct l; discriminate Htext. }
    rewrite Hl. cbn [afterLine].
    rewrite IH; [reflexivity|discriminate|exact Hlast|].
    cbn [List.length] in *. lia.
Qed.

Lemma getProp_other (r : record) (k h : string) (v : jsValue) :
  k <> h -> getProp ((k, v) :: r) h = getProp r h.
Proof.
  intros Hne. cbn [getProp]. apply String.eqb_neq in Hne. rewrite Hne.
  reflexivity.
Qed.

Lemma getProp_keys (r : record) :
  NoDup (keys r) -> map (getProp r) (keys r) = map snd r.
Proof.
  induction r as [|[k v] r IH]; intros Hnd; [reflexivity|].
  cbn [keys map fst snd] in *. inversion Hnd as [|x l Hnotin Hnd']; subst.
  f_equal.
  - cbn [getProp]. rewrite String.eqb_refl. reflexivity.
  - rewrite <- (IH Hnd'). apply map_ext_in. intros h Hh.
    apply getProp_other. intros ->. apply Hnotin. exact Hh.
Qed.

Lemma getProp_own (r : record) (h : string) :
  In h (keys r) -> In (h, getProp r h) r.
Proof.
  induction r as [|[k v] r IH]; intros Hin; [destruct Hin|].
  cbn [getProp]. destruct (String.eqb_spec k h) as [->|Hne].
  - left. reflexivity.
  - right. apply IH. destruct Hin as [H|H]; [contradiction|exact H].
Qed.

(** The line of a record that conforms is read as the texts of its
    fields. *)
Lemma row_lineReads (numeric : string -> bool) (ks : list string) (r : record) :
  keys r = ks -> ks <> [] -> conforms numeric r ->
  lineReads (csvRow ks r) (fieldTexts ks r).
Proof.
  intros Hk Hne Hconf. unfold csvRow, joinValues, fieldTexts. cbv zeta.
  rewrite map_map. apply fields_lineReads.
  - subst ks. clear Hne.
    assert (Hall : forall h, In h (keys r) ->
              fieldReads (joinElement (csvValue (getProp r h)))
                         (joinElement (getProp r h))).
    { intros h Hh. apply (value_reads (numeric h)).
      apply (Hconf h). apply getProp_own. exact Hh. }
    induction (keys r) as [|h l IH]; [constructor|].
    cbn [map]. constructor.
    + apply Hall. left. reflexivity.
    + apply IH. intros h' Hh'. apply Hall. right. exact Hh'.
  - destruct ks; [congruence|discriminate].
Qed.

(** The texts of its fields give the record back. *)
Lemma readRecord_fieldTexts (numeric : string -> bool) (r : record) :
  NoDup (keys r) -> conforms numeric r ->
  readRecord numeric (keys r) (fieldTexts (keys r) r) = Some r.
Proof.
  intros Hnd Hconf. unfold fieldTexts.
  rewrite <- (map_map (getProp r) joinElement), (getProp_keys r Hnd).
  clear Hnd. unfold keys. induction r as [|[k v] r IH]; [reflexivity|].
  cbn [map fst snd readRecord].
  rewrite IH by (intros k' v' Hin; apply (Hconf k' v'); right; exact Hin).
  rewrite (value_typed numeric k v) by (apply (Hconf k v); left; reflexivity).
  reflexivity.
Qed.

Lemma push_rows (headers : list string) (data : list record) (acc : list string) :
  fold_left (fun rows row => rows ++ [csvRow headers row]) data acc
  = acc ++ map (csvRow headers) data.
Proof.
  revert acc. induction data as [|r data IH]; intros acc; cbn [fold_left map].
  - rewrite app_nil_r. reflexivity.
  - rewrite IH, <- app_assoc. reflexivity.
Qed.

Lemma includes_append_right (c : ascii) (a b : string) :
  includes c b = true -> includes c (a ++ b) = true.
Proof.
  intros Hb. induction a as [|d a IH]; [exact Hb|].
  cbn [append includes]. rewrite IH. apply orb_true_r.
Qed.

(** The line of a record is empty only for a record of one property that
    is [null] or the empty string. *)
Lemma blank_csvRow (numeric : string -> bool) (r : record) :
  keys r <> [] -> conforms numeric r ->
  csvRow (keys r) r = EmptyString -> blankLine r.
Proof.
  intros Hne Hconf Hline.
  destruct r as [|[k v] r]; [destruct Hne; reflexivity|].
  destruct r as [|[k2 v2] r].
  - exists k, v. split; [reflexivity|].
    unfold csvRow, joinValues in Hline. cbn [keys map fst join getProp] in Hline.
    rewrite String.eqb_refl in Hline.
    specialize (Hconf k v (or_introl eq_refl)).
    destruct (numeric k); cbn [typedValue] in Hconf.
    + destruct Hconf as [->|(n & -> & Hn & _)]; [left; reflexivity|].
      cbn [csvValue joinElement] in Hline. contradiction.
    + destruct Hconf as (s & -> & _). right.
      unfold csvValue in Hline.
      destruct (includes comma (replaceQuotes s)
                || includes newline (replaceQuotes s));
        cbn [joinElement] in Hline; [discriminate Hline|].
      destruct s as [|c s]; [reflexivity|]. cbn [replaceQuotes] in Hline.
      destruct (Ascii.eqb c dquote); discriminate Hline.
  - exfalso. unfold csvRow, joinValues in Hline. cbn [keys map fst] in Hline.
    rewrite join_cons in Hline.
    apply (f_equal (includes comma)) in Hline.
    rewrite includes_append_right in Hline; [discriminate Hline|].
    reflexivity.
Qed.

Lemma last_map {A B : Type} (f : A -> B) (x : A) (l : list A) (a : A) (b : B) :
  last (map f (x :: l)) b = f (last (x :: l) a).
Proof.
  revert x. induction l as [|y l IH]; intros x; [reflexivity|].
  exact (IH y).
Qed.

(** C1 (as amended).  A sequence of records with uniform schema is read
    back from its text by the reader of delimited text that is typed by
    the schema, when the names hold no quote, the records have at least one
    property, every value of a number column is [null] or a number whose
    text is a plain numeral that reads back, every value of another column
    is a string that holds a quote only together with a comma or a line
    feed, and the last record is not written as an empty line. *)
Theorem round_trip_on_typed_records :
  forall (numeric : string -> bool) (data : list record),
    uniformSchema data ->
    (forall k, In k (keys (hd [] data)) -> quoteFree k) ->
    (data <> [] -> keys (hd [] data) <> []) ->
    (forall r, In r data -> conforms numeric r) ->
    ~ blankLine (last data []) ->
    deserialize numeric (convertToCsv data) = Some data.
Proof.
  intros numeric data Hschema Hq Hkeys Hall Hblank.
  destruct data as [|first more]; [reflexivity|].
  set (data := first :: more) in *.
  destruct Hschema as [Hnd Hsame]. cbn [hd] in Hq, Hkeys.
  specialize (Hkeys ltac:(discriminate)).
  set (ks := keys first) in *.
  assert (Hcsv : convertToCsv data =
                 join (str1 newline)
                   (join (str1 comma) (map quoted ks) :: map (csvRow ks) data)).
  { unfold data, convertToCsv. cbv zeta. rewrite push_rows. reflexivity. }
  rewrite Hcsv. unfold deserialize.
  rewrite (readLines_lines _ (ks :: map (fieldTexts ks) data)).
  - clear Hcsv Hblank. assert (Hrows : forall l,
      (forall r, In r l -> keys r = ks /\ conforms numeric r) ->
      readRecords numeric ks (map (fieldTexts ks) l) = Some l).
    { induction l as [|r l IH]; intros Hl; [reflexivity|].
      cbn [map readRecords].
      destruct (Hl r (or_introl eq_refl)) as [Hk Hc].
      rewrite <- Hk at 1 2. rewrite readRecord_fieldTexts;
        [|rewrite Hk; exact Hnd|exact Hc].
      rewrite IH; [reflexivity|].
      intros r' Hr'. apply Hl. right. exact Hr'. }
    apply Hrows. intros r Hr. split; [apply Hsame|apply Hall]; exact Hr.
  - constructor.
    + apply fields_lineReads.
      * assert (Hnames : forall l, (forall k, In k l -> quoteFree k) ->
                  Forall2 fieldReads (map quoted l) l).
        { induction l as [|k l IH]; intros Hl; [constructor|].
          cbn [map]. constructor.
          - apply name_reads. apply Hl. left. reflexivity.
          - apply IH. intros k' Hk'. apply Hl. right. exact Hk'. }
        apply Hnames. exact Hq.
      * intros H. apply map_eq_nil in H. exact (Hkeys H).
    + assert (Hrows : forall l,
        (forall r, In r l -> keys r = ks /\ conforms numeric r) ->
        Forall2 lineReads (map (csvRow ks) l) (map (fieldTexts ks) l)).
      { induction l as [|r l IH]; intros Hl; [constructor|].
        cbn [map]. constructor.
        - destruct (Hl r (or_introl eq_refl)) as [Hk Hc].
          apply (row_lineReads numeric); assumption.
        - apply IH. intros r' Hr'. apply Hl. right. exact Hr'. }
      apply Hrows. intros r Hr. split; [apply Hsame|apply Hall]; exact Hr.
  - discriminate.
  - assert (Hlast : last (join (str1 comma) (map quoted ks)
                          :: map (csvRow ks) data) EmptyString
                    = csvRow ks (last data [])).
    { unfold data. exact (last_map (csvRow ks) first more [] EmptyString). }
    rewrite Hlast. intros Hline. apply Hblank.
    assert (Hin : In (last data []) data).
    { unfold data. clear. revert first.
      induction more as [|r l IH]; intros first; [left; reflexivity|].
      right. apply IH. }
    apply (blank_csvRow numeric).
    + rewrite (Hsame _ Hin). exact Hkeys.
    + apply Hall. exact Hin.
    + rewrite (Hsame _ Hin). exact Hline.
  - cbn [List.length]. rewrite length_map.
    assert (Hlen : List.length data
                   <= S (String.length (join (str1 newline) (map (csvRow ks) data)))).
    { rewrite <- (length_map (csvRow ks) data). apply (join_length newline). }
    unfold data in *. cbn [map] in *. rewrite join_cons, !length_append.
    cbn [str1 String.length]. lia.
Qed.

End ReaderProofs.

(** ** Whole runs on the model of the site *)

Section SiteFacts.

Import Site.

Context {N : JSNumber}.

(** A site on which every selection of a college settles. *)
Variable cs : list College.
Hypothesis selects : forall c, In c cs -> selectError c = None.


















End SiteFacts.

(** ** The names of folders and files *)

Ltac compare_codes :=
  repeat match goal with
    | |- context [(?a <=? ?b)%nat] => destruct (Nat.leb_spec a b)
    | |- context [(?a =? ?b)%nat] => destruct (Nat.eqb_spec a b)
    | H : context [(?a <=? ?b)%nat] |- _ => destruct (Nat.leb_spec a b)
    | H : context [(?a =? ?b)%nat] |- _ => destruct (Nat.eqb_spec a b)
    end;
  cbn [andb orb negb] in *; try reflexivity; try discriminate; try lia.

Lemma plain_word (c : ascii) :
  isPlain c = true -> isWhiteSpace c = false -> isWordChar c = true.
Proof.
  unfold isPlain, isWhiteSpace, isWordChar. cbv zeta.
  generalize (nat_of_ascii c). intros n Hp Hw. compare_codes.
Qed.

Lemma plain_not_underscore (c : ascii) :
  isPlain c = true -> Ascii.eqb c "_" = false.
Proof.
  intros Hp. apply Ascii.eqb_neq. intros ->. discriminate Hp.
Qed.

Lemma removeSpecial_plain (s : string) : allChars isPlain (removeSpecial s) = true.
Proof.
  induction s as [|c s IH]; [reflexivity|]. cbn [removeSpecial].
  destruct (isPlain c) eqn:Hc; [|exact IH].
  cbn [allChars]. rewrite Hc, IH. reflexivity.
Qed.

Lemma removeSpecial_app (a b : string) :
  removeSpecial (a ++ b) = (removeSpecial a ++ removeSpecial b)%string.
Proof.
  induction a as [|c a IH]; [reflexivity|]. cbn [append removeSpecial].
  destruct (isPlain c); [cbn [append]|]; rewrite IH; reflexivity.
Qed.

Lemma doubled_cons (c a : ascii) (s : string) :
  doubled c (String a s) = Ascii.eqb a c && startsWith c s || doubled c s.
Proof.
  destruct s as [|b s]; cbn [doubled startsWith].
  - rewrite andb_false_r. reflexivity.
  - reflexivity.
Qed.

Lemma underscoreRuns_shape (inRun : bool) (t : string) :
  allChars isPlain t = true ->
  allChars isWordChar (underscoreRuns inRun t) = true /\
  doubled "_" (underscoreRuns inRun t) = false /\
  (inRun = true -> startsWith "_" (underscoreRuns inRun t) = false).
Proof.
  revert inRun. induction t as [|c t IH]; intros inRun Hall.
  - repeat split.
  - cbn [allChars] in Hall. apply andb_true_iff in Hall. destruct Hall as [Hc Ht].
    cbn [underscoreRuns]. destruct (isWhiteSpace c) eqn:Hw.
    + destruct (IH true Ht) as (Ha & Hd & Hs). specialize (Hs eq_refl).
      destruct inRun.
      * repeat split; auto.
      * cbn [allChars]. rewrite Ha, doubled_cons, Hs, Hd.
        repeat split. discriminate.
    + destruct (IH false Ht) as (Ha & Hd & _).
      cbn [allChars]. rewrite Ha, doubled_cons, Hd, (plain_word c Hc Hw).
      cbn [startsWith]. rewrite (plain_not_underscore c Hc). repeat split.
Qed.

(** X1.  A cleaned name is made of ASCII letters, digits and underscores,
    and it never has two underscores in a row. *)
Theorem clean_name_alphabet :
  forall s : string,
    allChars isWordChar (cleanName s) = true /\
    doubled "_" (cleanName s) = false.
Proof.
  intros s. unfold cleanName.
  destruct (underscoreRuns_shape false (removeSpecial s) (removeSpecial_plain s))
    as (Ha & Hd & _).
  split; assumption.
Qed.

Lemma underscoreRuns_two_spaces (inRun : bool) (a b : string) :
  underscoreRuns inRun (a ++ "  " ++ b) = underscoreRuns inRun (a ++ " " ++ b).
Proof.
  revert inRun. induction a as [|c a IH]; intros inRun.
  - destruct inRun; reflexivity.
  - cbn [append underscoreRuns].
    destruct (isWhiteSpace c); [destruct inRun|]; rewrite IH; reflexivity.
Qed.

(** X2.  Names that differ in a character the cleaning removes, or in the
    length of a run of spaces, are cleaned to the same name: two such
    colleges share a folder and two such branches of a college share a
    file. *)
Theorem clean_name_collisions :
  forall (a b : string) (c : ascii),
    isPlain c = false ->
    cleanName (a ++ String c b) = cleanName (a ++ b) /\
    cleanName (a ++ "  " ++ b) = cleanName (a ++ " " ++ b).
Proof.
  intros a b c Hc. unfold cleanName. split.
  - rewrite !removeSpecial_app. cbn [removeSpecial]. rewrite Hc. reflexivity.
  - rewrite !removeSpecial_app.
    change (removeSpecial ("  " ++ b)) with ("  " ++ removeSpecial b)%string.
    change (removeSpecial (" " ++ b)) with (" " ++ removeSpecial b)%string.
    apply underscoreRuns_two_spaces.
Qed.

Lemma removeSpecial_empty (s : string) :
  removeSpecial s = EmptyString <-> allChars isSpecial s = true.
Proof.
  induction s as [|c s IH]; [split; reflexivity|].
  cbn [removeSpecial allChars]. unfold isSpecial at 1.
  destruct (isPlain c); cbn [negb andb]; [split; discriminate|exact IH].
Qed.

Lemma underscoreRuns_empty (t : string) :
  underscoreRuns false t = EmptyString <-> t = EmptyString.
Proof.
  destruct t as [|c t]; [split; reflexivity|]. cbn [underscoreRuns].
  destruct (isWhiteSpace c); split; discriminate.
Qed.

Lemma not_own_extension {A : Type} (l : list A) (x : A) : l ++ [x] <> l.
Proof.
  intros H. apply (f_equal (@List.length A)) in H.
  rewrite length_app in H. cbn [List.length] in H. lia.
Qed.

Lemma append_not_empty (a : string) (c : ascii) (b : string) :
  (a ++ String c b)%string <> EmptyString.
Proof. destruct a; discriminate. Qed.

(** X3.  The file of a branch always lies directly in the folder of its
    college, under a name that ends in [.csv].  The folder of a college is
    the base folder itself exactly when no character of the name of the
    college is a letter, a digit or a space; otherwise it is the folder of
    the cleaned name in the base folder. *)
Theorem output_paths :
  forall (collegeName branchName : string) (collegeDir : path),
    pathResolve collegeDir (cleanName branchName ++ ".csv")
      = collegeDir ++ [(cleanName branchName ++ ".csv")%string] /\
    (pathResolve baseOutputFolder (cleanName collegeName) = baseOutputFolder
     <-> allChars isSpecial collegeName = true) /\
    (pathResolve baseOutputFolder (cleanName collegeName)
       = baseOutputFolder ++ [cleanName collegeName]
     <-> allChars isSpecial collegeName = false).
Proof.
  intros collegeName branchName collegeDir.
  assert (Hempty : cleanName collegeName = EmptyString
                   <-> allChars isSpecial collegeName = true).
  { unfold cleanName. rewrite underscoreRuns_empty. apply removeSpecial_empty. }
  split; [|split].
  - unfold pathResolve.
    destruct (String.eqb_spec (cleanName branchName ++ ".csv") EmptyString) as [H|H];
      [|reflexivity].
    apply append_not_empty in H. destruct H.
  - rewrite <- Hempty. unfold pathResolve.
    destruct (String.eqb_spec (cleanName collegeName) EmptyString) as [H|H].
    + split; auto.
    + split; [intros Hp; apply not_own_extension in Hp; destruct Hp|tauto].
  - unfold pathResolve.
    destruct (String.eqb_spec (cleanName collegeName) EmptyString) as [H|H].
    + split.
      * intros Hp. symmetry in Hp. apply not_own_extension in Hp. destruct Hp.
      * intros Hf. apply Hempty in H. congruence.
    + split; [|reflexivity]. intros _.
      destruct (allChars isSpecial collegeName) eqn:Ha; [|reflexivity].
      exfalso. apply H, Hempty. reflexivity.
Qed.

(** ** More on the serializer *)

Lemma includes_append (c : ascii) (a b : string) :
  includes c (a ++ b) = includes c a || includes c b.
Proof.
  induction a as [|d a IH]; [reflexivity|]. cbn [append includes].
  rewrite IH, orb_assoc. reflexivity.
Qed.

Lemma includes_quoted (c : ascii) (s : string) :
  c <> dquote -> includes c (quoted s) = includes c s.
Proof.
  intros Hc. unfold quoted, str1. cbn [includes]. rewrite includes_append.
  cbn [includes].
  assert (Ascii.eqb dquote c = false) as ->
    by (apply Ascii.eqb_neq; congruence).
  rewrite !orb_false_r. reflexivity.
Qed.

Lemma replaceQuotes_injective (s1 s2 : string) :
  replaceQuotes s1 = replaceQuotes s2 -> s1 = s2.
Proof.
  revert s2. induction s1 as [|c1 s1 IH]; intros [|c2 s2]; cbn [replaceQuotes].
  - reflexivity.
  - destruct (Ascii.eqb c2 dquote); discriminate.
  - destruct (Ascii.eqb c1 dquote); discriminate.
  - destruct (Ascii.eqb c1 dquote) eqn:H1, (Ascii.eqb c2 dquote) eqn:H2;
      intros H; inversion H; subst.
    + apply Ascii.eqb_eq in H1, H2. subst. f_equal. apply IH. assumption.
    + vm_compute in H2. discriminate.
    + vm_compute in H1. discriminate.
    + f_equal. apply IH. assumption.
Qed.

Lemma append_inv_tail (a b c : string) : (a ++ c = b ++ c)%string -> a = b.
Proof.
  revert b. induction a as [|x a IH]; intros [|y b] H.
  - reflexivity.
  - apply (f_equal String.length) in H. cbn [append String.length] in H.
    rewrite length_append in H. lia.
  - apply (f_equal String.length) in H. cbn [append String.length] in H.
    rewrite length_append in H. lia.
  - cbn [append] in H. inversion H. f_equal. apply IH. assumption.
Qed.

Section Texts.

Context {N : JSNumber}.

Lemma field_of_string (s : string) :
  joinElement (csvValue (VString s)) =
  if includes comma s || includes newline s
  then quoted (replaceQuotes s)
  else replaceQuotes s.
Proof.
  unfold csvValue. rewrite !includes_replaceQuotes by discriminate.
  destruct (includes comma s || includes newline s); reflexivity.
Qed.

Lemma wrapped_is_not_bare (s1 s2 : string) :
  includes comma s1 || includes newline s1 = true ->
  includes comma s2 || includes newline s2 = false ->
  quoted (replaceQuotes s1) <> replaceQuotes s2.
Proof.
  intros H1 H2 Heq.
  assert (Hc : forall c, c <> dquote -> includes c s1 = includes c s2).
  { intros c Hc.
    rewrite <- (includes_replaceQuotes c s1 Hc), <- (includes_quoted c _ Hc).
    rewrite Heq. apply includes_replaceQuotes. exact Hc. }
  rewrite (Hc comma), (Hc newline), H2 in H1 by discriminate. discriminate.
Qed.

(** X4.  Two strings that the serializer writes as the same field are the
    same string: the escaping and the wrapping lose nothing of a string. *)
Theorem string_fields_are_distinct :
  forall s1 s2 : string,
    joinElement (csvValue (VString s1)) = joinElement (csvValue (VString s2)) ->
    s1 = s2.
Proof.
  intros s1 s2. rewrite !field_of_string.
  destruct (includes comma s1 || includes newline s1) eqn:H1,
           (includes comma s2 || includes newline s2) eqn:H2; intros H.
  - apply replaceQuotes_injective. unfold quoted in H. inversion H.
    apply append_inv_tail in H3. exact H3.
  - apply wrapped_is_not_bare in H; [destruct H|exact H1|exact H2].
  - symmetry in H. apply wrapped_is_not_bare in H; [destruct H|exact H2|exact H1].
  - apply replaceQuotes_injective. exact H.
Qed.

Lemma convertToCsv_lines (first : record) (more : list record) :
  convertToCsv (first :: more) =
  join (str1 newline)
    (join (str1 comma) (map quoted (keys first))
     :: map (csvRow (keys first)) (first :: more)).
Proof. unfold convertToCsv. cbv zeta. rewrite push_rows. reflexivity. Qed.

(** X5.  The text of a sequence of records is the header line of the first
    record followed by one line for each record, in the order of the
    sequence, the lines joined by line feeds.  It is the empty string only
    for the empty sequence: the text of one record or more always holds a
    line feed. *)
Theorem csv_text_lines :
  (forall (first : record) (more : list record),
      convertToCsv (first :: more) =
      join (str1 newline)
        (join (str1 comma) (map quoted (keys first))
         :: map (csvRow (keys first)) (first :: more)) /\
      includes newline (convertToCsv (first :: more)) = true) /\
  (forall data : list record, convertToCsv data = EmptyString <-> data = []).
Proof.
  assert (Hfeed : forall first more,
            includes newline (convertToCsv (first :: more)) = true).
  { intros first more. rewrite convertToCsv_lines. cbn [map].
    rewrite join_cons, includes_append. cbn [str1 append includes].
    change (Ascii.eqb newline newline) with true.
    rewrite orb_true_r. reflexivity. }
  split.
  - intros first more. split; [apply convertToCsv_lines|apply Hfeed].
  - intros [|first more]; [split; reflexivity|].
    split; [|discriminate]. intros H. specialize (Hfeed first more).
    rewrite H in Hfeed. discriminate.
Qed.

Lemma getProp_without (r1 r2 : record) (k h : string) (v : jsValue) :
  k <> h -> getProp (r1 ++ (k, v) :: r2) h = getProp (r1 ++ r2) h.
Proof.
  intros Hne. induction r1 as [|[k1 v1] r1 IH]; cbn [app getProp].
  - apply String.eqb_neq in Hne. rewrite Hne. reflexivity.
  - rewrite IH. reflexivity.
Qed.

(** X6.  The columns are the properties of the first record.  A property
    that the first record does not have is never written: a later record
    with such a property is written as the record without it. *)
Theorem columns_of_first_record :
  forall (first : record) (before after : list record)
         (r1 r2 : record) (k : string) (v : jsValue),
    ~ In k (keys first) ->
    convertToCsv (first :: before ++ (r1 ++ (k, v) :: r2) :: after)
    = convertToCsv (first :: before ++ (r1 ++ r2) :: after).
Proof.
  intros first before after r1 r2 k v Hk.
  rewrite !convertToCsv_lines. do 2 f_equal. cbn [map]. f_equal.
  rewrite !map_app. cbn [map]. do 2 f_equal.
  unfold csvRow. cbv zeta. f_equal. apply map_ext_in. intros h Hh.
  rewrite getProp_without; [reflexivity|]. intros ->. contradiction.
Qed.

Lemma inherited_nothing (h : string) :
  h <> "constructor" -> ~ In h prototypeMethods -> h <> "__proto__" ->
  inherited h = VUndefined.
Proof.
  intros Hc Hm Hp. unfold inherited.
  destruct (String.eqb_spec h "constructor") as [H|_]; [contradiction|].
  destruct (existsb (String.eqb h) prototypeMethods) eqn:He.
  - apply existsb_exists in He. destruct He as (x & Hx & Heq).
    apply String.eqb_eq in Heq. subst x. contradiction.
  - destruct (String.eqb_spec h "__proto__") as [H|_]; [contradiction|].
    reflexivity.
Qed.

(** X7.  A record that lacks a property of the first record is written,
    in the column of that property, with what a plain object inherits under
    its name.  For a name that [Object.prototype] does not have this is
    [undefined]: the field is empty, as for a record that holds [null],
    [undefined] or the empty string there.  For [constructor] and for the
    name of a method of the prototype the field is the text of the
    inherited function, and for [__proto__] it is the tag of an object. *)
Theorem absent_property_is_inherited :
  forall (row : record) (h : string),
    ~ In h (keys row) ->
    getProp row h = inherited h /\
    (h <> "constructor" -> ~ In h prototypeMethods -> h <> "__proto__" ->
     joinElement (csvValue (getProp row h)) = EmptyString /\
     forall (hs : list string) (v : jsValue),
       In v [VUndefined; VNull; VString EmptyString] ->
       csvRow (h :: hs) ((h, v) :: row) = csvRow (h :: hs) row) /\
    (h = "constructor" ->
     joinElement (csvValue (getProp row h))
       = "function Object() { [native code] }") /\
    (In h prototypeMethods ->
     joinElement (csvValue (getProp row h))
       = ("function " ++ h ++ "() { [native code] }")%string) /\
    (h = "__proto__" ->
     joinElement (csvValue (getProp row h)) = "[object Object]").
Proof.
  intros row h Hin. rewrite (getProp_missing row h Hin).
  split; [reflexivity|]. split; [|split; [|split]].
  - intros Hc Hm Hp. rewrite (inherited_nothing h Hc Hm Hp).
    split; [reflexivity|].
    intros hs v Hv. unfold csvRow, joinValues. cbn [map]. f_equal.
    assert (Hhead : joinElement (csvValue (getProp ((h, v) :: row) h))
                    = joinElement (csvValue (getProp row h))).
    { cbn [getProp].
      rewrite String.eqb_refl, (getProp_missing row h Hin),
        (inherited_nothing h Hc Hm Hp).
      cbn [In] in Hv. destruct Hv as [<-|[<-|[<-|[]]]]; reflexivity. }
    rewrite Hhead. f_equal. rewrite !map_map. apply map_ext_in. intros h' Hh'.
    cbn [getProp]. destruct (String.eqb_spec h h') as [<-|Hne]; [|reflexivity].
    rewrite (getProp_missing row h Hin), (inherited_nothing h Hc Hm Hp).
    cbn [In] in Hv. destruct Hv as [<-|[<-|[<-|[]]]]; reflexivity.
  - intros ->. reflexivity.
  - intros Hm. cbn [prototypeMethods In] in Hm.
    repeat (destruct Hm as [<-|Hm]; [reflexivity|]). destruct Hm.
  - intros ->. reflexivity.
Qed.

(** ** More on the table function *)

Lemma extractRecords_tail (rows : list (list string)) :
  extractRecords rows = map makeRecord (filter hasData (tl rows)).
Proof.
  destruct rows as [|header dataRows]; [reflexivity|].
  apply extractRecords_rows.
Qed.

Lemma trimStart_clean (s : string) :
  match s with
  | EmptyString => True
  | String c _ => isWhiteSpace c = false
  end -> trimStart s = s.
Proof. destruct s as [|c s]; [reflexivity|]. cbn [trimStart]. intros ->. reflexivity. Qed.

Lemma trimStart_head (s : string) :
  match trimStart s with
  | EmptyString => True
  | String c _ => isWhiteSpace c = false
  end.
Proof.
  induction s as [|c s IH]; [exact I|]. cbn [trimStart].
  destruct (isWhiteSpace c) eqn:Hc; [exact IH|exact Hc].
Qed.

Lemma trimEnd_head (s : string) :
  match s with
  | EmptyString => True
  | String c _ => isWhiteSpace c = false
  end ->
  match trimEnd s with
  | EmptyString => True
  | String c _ => isWhiteSpace c = false
  end.
Proof.
  destruct s as [|c s]; [intros _; exact I|]. cbn [trimEnd]. intros Hc.
  destruct (trimEnd s); [rewrite Hc|]; exact Hc.
Qed.

Lemma trimEnd_again (s : string) : trimEnd (trimEnd s) = trimEnd s.
Proof.
  induction s as [|c s IH]; [reflexivity|]. cbn [trimEnd].
  destruct (trimEnd s) as [|d t] eqn:Ht.
  - destruct (isWhiteSpace c) eqn:Hc; [reflexivity|].
    cbn [str1 trimEnd]. rewrite Hc. reflexivity.
  - cbn [trimEnd]. cbn [trimEnd] in IH.
    destruct (trimEnd t) as [|d' t'] eqn:Ht'.
    + destruct (isWhiteSpace d); [discriminate IH|].
      inversion IH. reflexivity.
    + inversion IH. reflexivity.
Qed.

Lemma trim_again (s : string) : trim (trim s) = trim s.
Proof.
  unfold trim.
  rewrite (trimStart_clean (trimEnd (trimStart s))).
  - apply trimEnd_again.
  - apply trimEnd_head, trimStart_head.
Qed.

(** X8.  Every record of the table function has the eight properties of
    the object literal, in its order.  The serial number and the rank are
    numbers.  Each of the six other properties is [undefined] or a string
    that is trimmed: trimming it again changes nothing. *)
Theorem extracted_record_shape :
  forall (rows : list (list string)) (r : record),
    In r (extractRecords rows) ->
    keys r = fieldNames /\
    (exists sno rank : number,
        getProp r "sno" = VNumber sno /\ getProp r "rank" = VNumber rank) /\
    (forall key : string,
        In key textFields ->
        getProp r key = VUndefined \/
        exists s : string, getProp r key = VString s /\ trim s = s).
Proof.
  intros rows r Hin. rewrite extractRecords_tail in Hin.
  apply in_map_iff in Hin. destruct Hin as (cells & <- & _).
  split; [reflexivity|]. split.
  - unfold makeRecord, cellText.
    destruct (nth_error cells 0), (nth_error cells 2);
      do 2 eexists; split; reflexivity.
  - intros key Hkey. cbn [textFields In] in Hkey.
    assert (Htext : forall i,
              textValue (cellText cells i) = VUndefined \/
              exists s, textValue (cellText cells i) = VString s /\ trim s = s).
    { intros i. unfold cellText. destruct (nth_error cells i) as [c|].
      - right. exists (trim c). split; [reflexivity|apply trim_again].
      - left. reflexivity. }
    destruct Hkey as [<-|[<-|[<-|[<-|[<-|[<-|[]]]]]]];
      [exact (Htext 1)|exact (Htext 3)|exact (Htext 4)|exact (Htext 5)
      |exact (Htext 6)|exact (Htext 7)].
Qed.

Lemma cellText_firstn (cells : list string) (n i : nat) :
  i < n -> cellText (firstn n cells) i = cellText cells i.
Proof.
  intros Hi. unfold cellText. f_equal.
  rewrite nth_error_firstn.
  destruct (Nat.ltb_spec i n); [reflexivity|lia].
Qed.

Lemma hasData_firstn (cells : list string) :
  hasData (firstn 8 cells) = hasData cells.
Proof.
  unfold hasData. rewrite length_firstn.
  destruct (Nat.ltb_spec 1 (List.length cells)),
           (Nat.ltb_spec 1 (Nat.min 8 (List.length cells)));
    try reflexivity; lia.
Qed.

(** X9.  The table function reads the first eight cells of a row and no
    other: a table cut to eight columns gives the same records.  It never
    returns more records than the table has rows after the first. *)
Theorem cells_after_the_eighth_are_ignored :
  forall rows : list (list string),
    extractRecords (map (firstn 8) rows) = extractRecords rows /\
    List.length (extractRecords rows) <= List.length rows - 1.
Proof.
  intros rows. rewrite !extractRecords_tail. split.
  - destruct rows as [|header dataRows]; [reflexivity|]. cbn [map tl].
    induction dataRows as [|cells l IH]; [reflexivity|]. cbn [map filter].
    rewrite hasData_firstn. destruct (hasData cells); [|exact IH].
    cbn [map]. rewrite IH. f_equal.
    unfold makeRecord. rewrite !cellText_firstn by lia. reflexivity.
  - rewrite length_map.
    etransitivity; [apply filter_length_le|].
    destruct rows; cbn [tl List.length]; lia.
Qed.

(** X10.  The header of the text of a table is made of the properties
    handed over for its first row with more than one cell, and every record
    is written under these columns.  The header has the eight names when
    that row has at least eight cells.  When the row is shorter the header
    has fewer names, and the columns it lacks are missing for every record
    of the file. *)
Theorem table_text_header :
  forall (rows : list (list string)) (cells : list string)
         (others : list (list string)),
    filter hasData (tl rows) = cells :: others ->
    convertToCsv (byValue (extractRecords rows)) =
      join (str1 newline)
        (join (str1 comma) (map quoted (keysHandedOver cells))
         :: map (csvRow (keysHandedOver cells))
              (byValue (extractRecords rows))) /\
    (8 <= List.length cells -> keysHandedOver cells = fieldNames) /\
    (List.length cells < 8 -> List.length (keysHandedOver cells) < 8).
Proof.
  intros rows cells others Hrows.
  rewrite extractRecords_tail, Hrows. cbn [map byValue].
  rewrite convertToCsv_lines, keys_handed_over.
  split; [reflexivity|]. split; intros Hlen.
  - do 8 (destruct cells as [|? cells]; [cbn [List.length] in Hlen; lia|]).
    unfold keysHandedOver. cbn [List.length Nat.sub firstn Nat.ltb Nat.leb app].
    rewrite firstn_nil. reflexivity.
  - unfold keysHandedOver.
    do 8 (destruct cells as [|? cells]; [cbn; lia|]).
    cbn [List.length] in Hlen. lia.
Qed.

End Texts.

(** ** Calls, folders and files of a run, on any browser *)

Lemma file_in_folder (dir : path) (n : string) :
  pathResolve dir (cleanName n ++ ".csv") = dir ++ [(cleanName n ++ ".csv")%string].
Proof.
  unfold pathResolve.
  destruct (String.eqb_spec (cleanName n ++ ".csv") EmptyString) as [H|H];
    [|reflexivity].
  apply append_not_empty in H. destruct H.
Qed.

Section RunFacts.

Context {N : JSNumber}.
Variable W : Type.
Variable handle : forall A : Type, op A -> W -> W * result A.

Ltac expand :=
  cbv beta iota zeta delta
    [branchBody fetchBranch recover submitLeaf scrapeTable saveTable
     returnToForm tryCatch bind ret perform consoleLog consoleError seen];
  cbn [world trace].

Ltac call :=
  match goal with
  | H : handle ?A ?o ?w = _ |- context [handle ?A ?o ?w] => rewrite H
  | |- context [handle ?A ?o ?w] =>
      let w' := fresh "w" in
      let a := fresh "a" in
      let e := fresh "e" in
      let H := fresh "Hcall" in
      destruct (handle A o w) as [w' [a|e]] eqn:H
  end.

Ltac table :=
  match goal with
  | |- context [extractRecords ?rows] =>
      let Hx := fresh "Hrecords" in
      destruct (extractRecords rows) eqn:Hx;
      cbn [byValue map List.length Nat.ltb Nat.leb]
  end.

Ltac walk := expand; repeat (first [ call | table ]; expand).

Ltac events :=
  cbn [fst snd trace]; repeat rewrite <- app_assoc; cbn [app].

(** X11.  One pass of the branch loop asks little of the browser: it selects
    the college first and the branch after it, clicks the submit button at
    most once and only after both selections, reads the table at most once,
    writes at most one file, and steps back once or twice.  It makes no
    folder and does not close the browser. *)
Theorem leaf_calls_bounded :
  forall (college : SelectOption) (collegeDir : path)
         (branch : SelectOption) (s : state W),
    exists d,
      trace (fst (branchBody W handle college collegeDir branch s))
        = trace s ++ d /\
      (selections d = [(collegeSelector, value college)] /\ clicks d = [] \/
       selections d = [(collegeSelector, value college);
                       (branchSelector, value branch)] /\
       (clicks d = [] \/ clicks d = [(NewPage, submitButtonSelector)])) /\
      List.length (tableReads d) <= 1 /\
      List.length (filesWritten d) <= 1 /\
      1 <= List.length (stepsBack d) <= 2 /\
      dirsMade d = [] /\ closes d = [].
Proof.
  intros college collegeDir branch [w tr].
  walk; events; (eexists; split; [reflexivity|]); cbn;
    repeat split; auto; lia.
Qed.

(** X12.  How a pass of the branch loop ends is read off the calls that
    threw.  When none threw, the leaf is either saved or reported as empty,
    and it is not reported as failed.  When one threw, the leaf is reported
    as failed once, with the message of that call, and the loop goes on.
    When two threw, the second one is the step back of the [catch] block:
    the leaf is reported as failed with the first message, the abandonment
    line shows the second, and the loop ends.  No pass has more than two
    calls that throw. *)
Theorem leaf_outcomes :
  forall (college : SelectOption) (collegeDir : path)
         (branch : SelectOption) (s : state W),
    exists (d : list event) (c : control),
      snd (branchBody W handle college collegeDir branch s) = Ok c /\
      trace (fst (branchBody W handle college collegeDir branch s))
        = trace s ++ d /\
      match thrown d with
      | [] =>
          c = Next /\ errors d = [] /\
          List.length (saved d) + List.length (reportedEmpty d) = 1
      | [e] =>
          c = Next /\
          errors d = [MsgCouldNotFetch (name college) (name branch) e]
      | [e; e'] =>
          c = Break /\
          errors d = [MsgCouldNotFetch (name college) (name branch) e;
                      MsgFailedGoBack e']
      | _ => False
      end.
Proof.
  intros college collegeDir branch [w tr].
  walk; events; do 2 eexists; (split; [reflexivity|]);
    (split; [reflexivity|]); cbn; repeat split.
Qed.

(** What a trace shows goes through concatenation. *)
Lemma closes_app (a b : list event) : closes (a ++ b) = closes a ++ closes b.
Proof. apply flat_map_app. Qed.

Lemma dirsMade_app (a b : list event) :
  dirsMade (a ++ b) = dirsMade a ++ dirsMade b.
Proof. apply flat_map_app. Qed.

Lemma dirChecks_app (a b : list event) :
  dirChecks (a ++ b) = dirChecks a ++ dirChecks b.
Proof. apply flat_map_app. Qed.

Lemma optionReads_app (a b : list event) :
  optionReads (a ++ b) = optionReads a ++ optionReads b.
Proof. apply flat_map_app. Qed.

Lemma filesWritten_app (a b : list event) :
  filesWritten (a ++ b) = filesWritten a ++ filesWritten b.
Proof. apply flat_map_app. Qed.

Lemma branchBody_events (college : SelectOption) (collegeDir : path)
    (branch : SelectOption) (s : state W) :
  exists s' c d,
    branchBody W handle college collegeDir branch s = (s', Ok c) /\
    trace s' = trace s ++ d /\
    leafEvents collegeDir [branch] d.
Proof.
  destruct s as [w tr].
  walk; do 3 eexists; (split; [reflexivity|]); events;
    (split; [reflexivity|]); unfold leafEvents;
    (do 5 (split; [reflexivity|])); cbn; auto.
  all: constructor; [|constructor].
  all: match goal with
       | H : extractRecords ?rows = _ |- _ =>
           exists branch, rows; unfold branchFile; rewrite H
       end.
  all: split; [left; reflexivity|]; split; [discriminate|];
       split; [|reflexivity]; auto 20.
Qed.

Lemma leafEvents_app (collegeDir : path) (l1 l2 : list SelectOption)
    (d1 d2 : list event) :
  leafEvents collegeDir l1 d1 -> leafEvents collegeDir l2 d2 ->
  leafEvents collegeDir (l1 ++ l2) (d1 ++ d2).
Proof.
  intros (H1 & H2 & H3 & H4 & H5 & H6) (K1 & K2 & K3 & K4 & K5 & K6).
  unfold leafEvents.
  rewrite closes_app, dirsMade_app, dirChecks_app, optionReads_app,
    processed_app, filesWritten_app, H1, H2, H3, H4, H5, K1, K2, K3, K4, K5.
  repeat (split; [reflexivity|]).
  apply Forall_app. split; eapply Forall_impl; try eassumption;
    intros f (b & rows & Hb & Hr & Hq & Hf); exists b, rows;
    (split; [apply in_or_app; auto|]); (split; [exact Hr|]);
    (split; [apply in_or_app; auto|exact Hf]).
Qed.

Lemma leafEvents_more (collegeDir : path) (l1 l2 : list SelectOption)
    (d : list event) :
  leafEvents collegeDir l1 d -> leafEvents collegeDir (l1 ++ l2) d.
Proof.
  intros H. rewrite <- (app_nil_r d). apply leafEvents_app; [exact H|].
  repeat split. constructor.
Qed.

Lemma branchLoop_events (college : SelectOption) (collegeDir : path)
    (branches : list SelectOption) (s : state W) :
  exists s' d,
    forOf W branches (branchBody W handle college collegeDir) s = (s', Ok tt) /\
    trace s' = trace s ++ d /\
    leafEvents collegeDir branches d.
Proof.
  revert s. induction branches as [|b rest IH]; intros s.
  - exists s, []. cbn [forOf ret]. rewrite app_nil_r.
    repeat split. constructor.
  - destruct (branchBody_events college collegeDir b s)
      as (s1 & c & d1 & Hrun & Htr & Hev).
    cbn [forOf]. unfold bind at 1. rewrite Hrun. destruct c.
    + destruct (IH s1) as (s2 & d2 & Hrun2 & Htr2 & Hev2).
      exists s2, (d1 ++ d2). rewrite Hrun2, Htr2, Htr, app_assoc.
      split; [reflexivity|]. split; [reflexivity|].
      exact (leafEvents_app collegeDir [b] rest d1 d2 Hev Hev2).
    + exists s1, d1. cbn [ret]. split; [reflexivity|]. split; [exact Htr|].
      exact (leafEvents_more collegeDir [b] rest d1 Hev).
Qed.

Ltac expand_college :=
  cbv beta iota zeta delta
    [collegeBody bind ret perform consoleLog consoleError seen];
  cbn [world trace].

Ltac last_call :=
  match goal with
  | |- exists pre A o, ?l = pre ++ [Called o (Throw _)] =>
      exists (removelast l); do 2 eexists; reflexivity
  end.

Lemma collegeBody_events (college : SelectOption) (s0 : state W) :
  exists sEnd r d,
    collegeBody W handle college s0 = (sEnd, r) /\
    trace sEnd = trace s0 ++ d /\
    collegeEvents college r d.
Proof.
  destruct s0 as [w0 tr0].
  expand_college.
  repeat (first
    [ call
    | match goal with
      | |- context [negb ?b] => is_var b; destruct b; cbn [negb]
      end ];
    expand_college).
  all: try (do 3 eexists; (split; [reflexivity|]); events;
            (split; [reflexivity|]); unfold collegeEvents;
            (split; [reflexivity|]); (split; [reflexivity|]);
            (split; [eexists; split; reflexivity|]);
            (split; [last_call|]); constructor).
  all: match goal with
       | |- context [forOf W ?bs ?body ?st] =>
           destruct (branchLoop_events college
                       (pathResolve baseOutputFolder (cleanName (name college)))
                       bs st)
             as (s2 & d2 & Hloop & Htr2 & Hc & Hm & Hk & Ho & Hp & Hf);
           rewrite Hloop
       end.
  all: do 3 eexists; (split; [reflexivity|]); rewrite Htr2; events;
       (split; [reflexivity|]); unfold collegeEvents.
  all: unfold closes, dirsMade, dirChecks, optionReads, processed, logged in *.
  all: cbn [flat_map app closeOf mkdirOf dirCheckOf optionReadOf logOf
            processedOf writeOf filesWritten].
  all: rewrite ?Hc, ?Hm, ?Hk, ?Ho, ?Hp.
  all: split; [reflexivity|]; split; [reflexivity|];
       (split; [eexists; split; reflexivity|]); split; [reflexivity|].
  all: eapply Forall_impl; [|exact Hf].
  all: intros f (b & rows & Hb & Hr & Hq & Hfile);
       eexists; exists b, rows; split; [reflexivity|];
       split; [exact Hb|]; split; [exact Hr|];
       split; [do 12 (try right); try exact Hq; auto 20|];
       split; [|exact Hfile];
       repeat match goal with a : unit |- _ => destruct a end;
       unfold folderReady; cbn [In]; auto 20.
Qed.


(** X14.  An error outside the [try] block of the branch loop is not
    caught.  When a pass of the college loop throws, the call that threw is
    its last event, no leaf of the college was attempted and no file was
    written, and the college loop throws at once: the colleges that follow
    are not processed.  A pass that does not throw ends normally, whatever
    happened to its leaves, and the loop goes on with the next college. *)
Theorem college_errors_end_the_loop :
  forall (college : SelectOption) (rest : list SelectOption) (s : state W),
    exists d,
      trace (fst (collegeBody W handle college s)) = trace s ++ d /\
      match snd (collegeBody W handle college s) with
      | Throw e =>
          (exists pre A (o : op A), d = pre ++ [Called o (Throw e)]) /\
          attemptsUnder (name college) d = [] /\
          filesWritten d = [] /\
          forOf W (college :: rest) (collegeBody W handle) s
            = (fst (collegeBody W handle college s), Throw e)
      | Ok c =>
          c = Next /\
          forOf W (college :: rest) (collegeBody W handle) s
            = forOf W rest (collegeBody W handle)
                (fst (collegeBody W handle college s))
      end.
Proof.
  intros college rest [w0 tr0]. cbn [forOf]. unfold bind at 1.
  set (k := forOf W rest _).
  expand_college.
  repeat (first
    [ call
    | match goal with
      | |- context [negb ?b] => is_var b; destruct b; cbn [negb]
      end ];
    expand_college).
  all: try (events; eexists; (split; [reflexivity|]);
            (split; [last_call|]); repeat split).
  all: match goal with
       | |- context [forOf W ?bs ?body ?st] =>
           destruct (branchLoop_events college
                       (pathResolve baseOutputFolder (cleanName (name college)))
                       bs st)
             as (s2 & d2 & Hloop & Htr2 & _);
           rewrite Hloop
       end.
  all: cbn [fst snd]; rewrite Htr2; events;
       eexists; (split; [reflexivity|]); split; reflexivity.
Qed.

Lemma loopFile_more (cs cs' : list SelectOption) (d d' : list event)
    (f : path * string) :
  (forall c, In c cs -> In c cs') ->
  (forall x, In x (optionReads d) -> In x (optionReads d')) ->
  loopFile cs d f -> loopFile cs' d' f.
Proof.
  intros Hcs Hd (college & options & branch & rows & H1 & H2 & H3 & H4 & H5).
  exists college, options, branch, rows. auto.
Qed.

Lemma collegeLoop_events (colleges : list SelectOption) (s : state W) :
  exists s' r d k,
    forOf W colleges (collegeBody W handle) s = (s', r) /\
    trace s' = trace s ++ d /\
    loopEvents colleges k r d.
Proof.
  revert s. induction colleges as [|c rest IH]; intros s.
  - exists s, (Ok tt), [], 0. cbn [forOf ret]. rewrite app_nil_r.
    repeat split; constructor.
  - destruct (collegeBody_events c s)
      as (s1 & r1 & d1 & Hrun & Htr & Hc & Hp & (answer & Hd & Hm) & Hr & Hf).
    assert (Hchecks : Forall (fun x => exists college,
                                 In college (c :: rest) /\
                                 fst x = folderOf college)
                             (dirChecks d1)).
    { rewrite Hd. repeat constructor.
      exists c. split; [left|]; reflexivity. }
    assert (Hdirs : Forall (fun p => exists college,
                               In college (c :: rest) /\ p = folderOf college)
                           (dirsMade d1)).
    { rewrite Hm. destruct answer as [[|]|]; repeat constructor.
      exists c. split; [left|]; reflexivity. }
    assert (Hfiles : Forall (loopFile (c :: rest) d1) (filesWritten d1)).
    { eapply Forall_impl; [|exact Hf].
      intros f (options & b & rows & Hread & Hb & Hrows & _ & _ & ->).
      exists c, options, b, rows. split; [left; reflexivity|].
      split; [rewrite Hread; left; reflexivity|]. auto. }
    cbn [forOf]. unfold bind at 1. rewrite Hrun.
    destruct r1 as [ctl|e].
    + subst ctl.
      destruct (IH s1)
        as (s2 & r2 & d2 & k & Hrun2 & Htr2 & Kc & Kk & Kp & Kr & Kd & Kx & Kf).
      exists s2, r2, (d1 ++ d2), (S k). rewrite Hrun2, Htr2, Htr, app_assoc.
      split; [reflexivity|]. split; [reflexivity|]. unfold loopEvents.
      rewrite closes_app, processed_app, dirsMade_app, dirChecks_app,
        filesWritten_app, Hc, Kc, Hp, Kp.
      split; [reflexivity|]. split; [cbn [List.length]; lia|].
      split; [reflexivity|]. split.
      { destruct r2 as [u|e]; [cbn [List.length]; lia|].
        destruct Kr as (Hk & pre & A & o & ->). split; [lia|].
        exists (d1 ++ pre), A, o. rewrite app_assoc. reflexivity. }
      split; [|split]; apply Forall_app; split; try assumption.
      * eapply Forall_impl; [|exact Kd].
        intros p (college & Hin & ->). exists college. split; [right|]; auto.
      * eapply Forall_impl; [|exact Kx].
        intros x (college & Hin & Hfst). exists college. split; [right|]; auto.
      * eapply Forall_impl; [|exact Hfiles].
        intros f. apply loopFile_more; [auto|].
        intros x Hx. rewrite optionReads_app. apply in_or_app. left. exact Hx.
      * eapply Forall_impl; [|exact Kf].
        intros f. apply loopFile_more; [intros x Hx; right; exact Hx|].
        intros x Hx. rewrite optionReads_app. apply in_or_app. right. exact Hx.
    + exists s1, (Throw e), d1, 1. split; [reflexivity|]. split; [exact Htr|].
      unfold loopEvents. rewrite Hc, Hp.
      split; [reflexivity|]. split; [cbn [List.length]; lia|].
      split; [reflexivity|]. split; [split; [lia|exact Hr]|].
      split; [|split]; assumption.
Qed.

Ltac expand_run :=
  cbv beta iota zeta delta
    [scrapeAllotments bind ret perform consoleLog consoleError seen];
  cbn [world trace].

(** The list [l] without what follows its variable part [d]. *)
Ltac upto l d :=
  lazymatch l with
  | d ++ _ => constr:(d)
  | d => constr:(d)
  | ?x :: ?l' => let f := upto l' d in constr:(x :: f)
  end.

Lemma scrapeAllotments_events (s : state W) :
  exists s' r d,
    scrapeAllotments W handle s = (s', r) /\
    trace s' = trace s ++ d /\
    runEvents r d.
Proof.
  destruct s as [w tr].
  expand_run.
  repeat (first
    [ call
    | match goal with
      | |- context [negb ?b] => is_var b; destruct b; cbn [negb]
      end ];
    expand_run).
  all: try (do 3 eexists; (split; [reflexivity|]); events;
            (split; [reflexivity|]); unfold runEvents;
            (split; [match goal with
                     | |- exists pre A o, ?l = _ /\ _ =>
                         exists (removelast l); do 2 eexists;
                         split; reflexivity
                     end|]);
            cbn; repeat split;
            first [ exists 0; cbn; repeat split; lia | repeat constructor ]).
  all: match goal with
       | |- context [forOf W ?cs ?body ?st] =>
           destruct (collegeLoop_events cs st)
             as (s2 & r2 & d2 & k & Hloop & Htr2 & Kc & Kk & Kp & Kr & Kd & Kx & Kf);
           rewrite Hloop; destruct r2 as [u|e]
       end.
  all: expand_run; repeat (call; expand_run).
  all: repeat match goal with a : unit |- _ => destruct a end.
  all: do 3 eexists; (split; [reflexivity|]); rewrite Htr2; events;
       (split; [reflexivity|]); unfold runEvents.
  all: unfold closes, dirsMade, dirChecks, optionReads, processed, logged,
         filesWritten in *.
  all: split; [|split; [|split; [|split]]].
  (* how the run ends *)
  all: try match goal with
       | |- exists pre, ?l = pre ++ [_; _; _] /\ _ =>
           let f := upto l d2 in
           exists f; split; [reflexivity|];
           cbn [flat_map closeOf app]; exact Kc
       | H : _ = _ |- exists pre A o, ?l = _ /\ _ =>
           let f := upto l d2 in
           exists (f ++ [ConsoleLog MsgComplete]); do 2 eexists;
           split; [cbn [app]; rewrite <- ?app_assoc; reflexivity|];
           cbn [flat_map closeOf app]; rewrite flat_map_app, Kc; reflexivity
       | H : _ /\ _ |- exists pre A o, ?l = _ /\ _ =>
           destruct H as (_ & pre2 & A & o & Hd2);
           rewrite Hd2, flat_map_app in Kc; apply app_eq_nil in Kc;
           rewrite Hd2;
           match goal with
           | |- exists pre A o, ?l' = _ /\ _ =>
               let f := upto l' pre2 in
               exists f, A, o; split; [reflexivity|];
               cbn [flat_map closeOf app]; exact (proj1 Kc)
           end
       end.
  (* the colleges *)
  all: try match goal with
       | |- match flat_map optionReadOf _ with _ => _ end =>
           cbn [flat_map optionReadOf logOf processedOf app];
           split; [reflexivity|]; exists k; split; [exact Kk|];
           rewrite ?flat_map_app; cbn [flat_map logOf processedOf app];
           rewrite ?app_nil_r; split; [exact Kp|];
           first [ exact Kr | exact I ]
       end.
  (* the folders *)
  all: try match goal with
       | |- Forall _ (flat_map mkdirOf _) =>
           cbn [flat_map mkdirOf app]; rewrite ?flat_map_app;
           cbn [flat_map mkdirOf app]; rewrite ?app_nil_r;
           repeat (constructor; [left; reflexivity|]);
           eapply Forall_impl; [|exact Kd];
           intros p (c & _ & ->); right; exists c; reflexivity
       end.
  (* the folders looked for *)
  all: try match goal with
       | |- Forall _ (flat_map dirCheckOf _) =>
           cbn [flat_map dirCheckOf app]; rewrite ?flat_map_app;
           cbn [flat_map dirCheckOf app]; rewrite ?app_nil_r;
           repeat (constructor; [left; reflexivity|]);
           eapply Forall_impl; [|exact Kx];
           intros x (c & _ & Hx); right; exists c; exact Hx
       end.
  (* the files *)
  all: cbn [flat_map writeOf app]; rewrite ?flat_map_app;
       cbn [flat_map writeOf app]; rewrite ?app_nil_r;
       eapply Forall_impl; [|exact Kf];
       intros f (c & options & b & rows & Hin & Hread & Hb & Hrows & ->);
       match goal with
       | |- context [Called (QueryOptions collegeSelector) (Ok ?l)] =>
           exists l, c, options, b, rows
       end;
       unfold optionReads; cbn [flat_map optionReadOf app];
       split; [left; reflexivity|]; split; [exact Hin|];
       split; [right; rewrite ?flat_map_app;
               first [exact Hread | apply in_or_app; left; exact Hread]|];
       auto.
Qed.

(** X15.  A run ends in one of two ways.  When it returns, its last three
    events are the line that all colleges are done, the call that closes
    the browser and the line that the browser is closed.  When it throws,
    its last event is the call that threw: nothing is done after it, and if
    that call is not the closing of the browser itself, the browser is
    never closed.  The last line of the script prints the error and does
    not throw. *)
Theorem run_ends :
  forall s : state W,
    exists d,
      trace (fst (scrapeAllotments W handle s)) = trace s ++ d /\
      snd (main W handle s) = Ok tt /\
      match snd (scrapeAllotments W handle s) with
      | Ok _ =>
          (exists pre,
              d = pre ++ [ConsoleLog MsgComplete; Called BrowserClose (Ok tt);
                          ConsoleLog MsgBrowserClosed] /\
              closes pre = []) /\
          main W handle s = scrapeAllotments W handle s
      | Throw e =>
          (exists pre A (o : op A),
              d = pre ++ [Called o (Throw e)] /\ closes pre = []) /\
          main W handle s =
            (seen (fst (scrapeAllotments W handle s))
               [ConsoleError (MsgUncaught e)], Ok tt)
      end.
Proof.
  intros s.
  destruct (scrapeAllotments_events s) as (s' & r & d & Hrun & Htr & Hend & _).
  exists d. unfold main, tryCatch, consoleError. rewrite Hrun. cbn [fst snd].
  split; [exact Htr|]. destruct r as [[]|e].
  - split; [reflexivity|]. split; [exact Hend|reflexivity].
  - split; [reflexivity|]. split; [exact Hend|reflexivity].
Qed.

(** X16.  The colleges of a run are read off the college dropdown once, at
    the start.  The colleges processed are the options of that dropdown
    whose value is not empty, in the order of the dropdown: all of them
    when the run returns, the first ones when it throws.  No college is
    processed when the dropdown could not be read. *)
Theorem colleges_in_dropdown_order :
  forall s : state W,
    exists d,
      trace (fst (scrapeAllotments W handle s)) = trace s ++ d /\
      match optionReads d with
      | [] => processed d = []
      | (sel, Throw _) :: _ => sel = collegeSelector /\ processed d = []
      | (sel, Ok options) :: _ =>
          sel = collegeSelector /\
          exists k,
            k <= List.length (collegeOptions options) /\
            processed d = map name (firstn k (collegeOptions options)) /\
            match snd (scrapeAllotments W handle s) with
            | Ok _ => k = List.length (collegeOptions options)
            | Throw _ => True
            end
      end.
Proof.
  intros s.
  destruct (scrapeAllotments_events s) as (s' & r & d & Hrun & Htr & _ & Hc & _).
  exists d. rewrite Hrun. cbn [fst snd]. split; [exact Htr|exact Hc].
Qed.

(** X17.  Whatever the browser answers, a run makes no folder but the base
    folder and folders of colleges, and these are all it looks for: it
    never asks whether a file is there before writing it.  Every file it
    writes is the file of an option that the run read off the college
    dropdown, whose value is not empty, and of an option that it read off a
    branch dropdown, whose value is not 0: the file lies in the folder of
    the college, under the cleaned name of the branch, and its text is the
    text of the records handed over for a table that has records. *)
Theorem run_files_and_folders :
  forall s : state W,
    exists d,
      trace (fst (scrapeAllotments W handle s)) = trace s ++ d /\
      Forall (fun p => p = baseOutputFolder \/
                       exists college, p = folderOf college)
             (dirsMade d) /\
      Forall (fun c => fst c = baseOutputFolder \/
                       exists college, fst c = folderOf college)
             (dirChecks d) /\
      Forall (fun f => exists collegeList college branchList branch rows,
                         In (collegeSelector, Ok collegeList) (optionReads d) /\
                         In college collegeList /\
                         value college <> EmptyString /\
                         In (branchSelector, Ok branchList) (optionReads d) /\
                         In branch branchList /\ value branch <> "0" /\
                         extractRecords rows <> [] /\
                         fst f = folderOf college
                                 ++ [(cleanName (name branch) ++ ".csv")%string] /\
                         snd f = convertToCsv (byValue (extractRecords rows)) /\
                         includes newline (snd f) = true)
             (filesWritten d).
Proof.
  intros s.
  destruct (scrapeAllotments_events s)
    as (s' & r & d & Hrun & Htr & _ & _ & Hdirs & Hchecks & Hfiles).
  exists d. rewrite Hrun. cbn [fst]. split; [exact Htr|].
  split; [exact Hdirs|]. split; [exact Hchecks|].
  eapply Forall_impl; [|exact Hfiles].
  intros f (cl & college & bl & branch & rows & H1 & Hc & H2 & Hb & Hrows & ->).
  exists cl, college, bl, branch, rows.
  unfold collegeOptions in Hc. apply filter_In in Hc. destruct Hc as [Hc Hcv].
  apply negb_true_iff, String.eqb_neq in Hcv.
  unfold branchOptions in Hb. apply filter_In in Hb. destruct Hb as [Hb Hbv].
  apply negb_true_iff, String.eqb_neq in Hbv.
  repeat (split; [assumption|]).
  cbn [branchFile fst snd]. split; [apply file_in_folder|].
  split; [reflexivity|].
  destruct (extractRecords rows) as [|first more]; [congruence|].
  cbn [byValue map]. rewrite convertToCsv_lines. cbn [map].
  rewrite join_cons, includes_append. cbn [str1 append includes].
  change (Ascii.eqb newline newline) with true.
  rewrite orb_true_r. reflexivity.
Qed.

End RunFacts.

(** ** The examples, run *)

Module Examples.

Import Site Scenario.

#[local] Existing Instance Double.numbers.

(** A value of the type of its column. *)
Ltac typed_value :=
  lazymatch goal with
  | |- typedValue ?b ?v =>
      let b' := eval vm_compute in b in
      change (typedValue b' v); cbv beta iota delta [typedValue]
  end;
  first
    [ left; reflexivity
    | right; eexists; split; [reflexivity|]; unfold readsBack;
      repeat split; vm_compute; solve [discriminate | reflexivity]
    | eexists; split; [reflexivity|]; unfold quoteSafe; vm_compute;
      intros H; first [reflexivity | discriminate H] ].

(** The first end-to-end scenario of the spec: three leaves are attempted,
    a file is written for [(A,X)] only, [(A,Y)] is reported as empty and
    [(B,Z)] as failed, and the run ends normally. *)
Example first_scenario :
  snd (crawl specSite) = Ok tt /\
  attempts (trace (fst (crawl specSite)))
    = [("A", "X"); ("A", "Y"); ("B", "Z")] /\
  map fst (files (world (fst (crawl specSite))))
    = [ ["2025 phase 2 data"; "A"; "X.csv"] ] /\
  reportedEmpty (trace (fst (crawl specSite))) = ["Y"] /\
  reportedFailed (trace (fst (crawl specSite))) = [("B", "Z")].
Proof. vm_compute. repeat split. Qed.

(** The second scenario: after [(A,X)] no step back works, [(A,Y)] is never
    attempted and the crawl goes on with [B]. *)
Example second_scenario :
  snd (crawl stuckSite) = Ok tt /\
  attempts (trace (fst (crawl stuckSite))) = [("A", "X"); ("B", "Z")] /\
  abandonments (trace (fst (crawl stuckSite))) = ["Still stuck"].
Proof. vm_compute. repeat split. Qed.

(** The table function on a table with a header, a row of one cell and two
    full rows: the text of its records is the text of the two full rows. *)
Example table_with_a_stray_row :
  convertToCsv
    (byValue
       (extractRecords
          [ []; ["Total: 2"];
            ["1"; "2511A0501"; "1042"; "ASHA"; "F"; "OC"; "OU"; "CONV"];
            ["2"; "2511A0502"; "2310"; "RAVI"; "M"; "BC_B"; "AU"; "CONV"] ]))
  = convertToCsv (byValue (extractRecords twoRows)) /\
  List.length (byValue (extractRecords twoRows)) = 2 /\
  csvRow (keys (makeRecord shortRow))
         (nth 1 (byValue (extractRecords twoRows)) [])
  = "2,2511A0502,2310,RAVI,M,BC_B,AU,CONV".
Proof. split; [|split]; vm_compute; reflexivity. Qed.

(** The numbers of the script are binary floating-point numbers: a numeral
    is rounded to the nearest of them, and a number is printed with the
    fewest digits that read back as it. *)
Example number_texts :
  map (fun s => NumberToString (StringToNumber s))
      ["1042"; " 7 "; "007"; "1e3"; "0.1"; "-0"; "0x10"; "1e21";
       "9007199254740993"; "0.0000001"; ""; "12a"; "-"; "Infinity"]
  = ["1042"; "7"; "7"; "1000"; "0.1"; "0"; "16"; "1e+21";
     "9007199254740992"; "1e-7"; "0"; "NaN"; "NaN"; "Infinity"].
Proof. vm_compute. reflexivity. Qed.

(** C1, counterexample.  No reader at all can give back every uniform
    sequence: a record whose name is [null] and a record whose name is the
    empty string are different and have the same text.  The reader of
    delimited text fails on more: a string with a quote among its letters
    is read with the quote doubled, a string that is one quote is read as
    the empty string, the text of a string in quotes has no reading, and
    a last record that is written as an empty line is not read at all. *)
Lemma round_trip_fails :
  (~ exists read : string -> list (@record Double.numbers),
       forall data : list record,
         uniformSchema data -> read (convertToCsv data) = data) /\
  uniformSchema nullName /\ uniformSchema emptyName /\
  nullName <> emptyName /\ convertToCsv nullName = convertToCsv emptyName /\
  uniformSchema innerQuote /\
  deserialize numberColumn (convertToCsv innerQuote)
    = Some [ [("name", VString ("a" ++ str1 dquote ++ str1 dquote ++ "b"))] ] /\
  deserialize numberColumn (convertToCsv innerQuote) <> Some innerQuote /\
  uniformSchema loneQuote /\
  deserialize numberColumn (convertToCsv loneQuote)
    = Some [ [("name", VString EmptyString)] ] /\
  deserialize numberColumn (convertToCsv loneQuote) <> Some loneQuote /\
  uniformSchema quotedName /\
  deserialize numberColumn (convertToCsv quotedName) = None /\
  uniformSchema emptyLast /\
  deserialize numberColumn (convertToCsv emptyLast)
    = Some [ [("name", VString "ASHA")] ] /\
  deserialize numberColumn (convertToCsv emptyLast) <> Some emptyLast.
Proof.
  assert (Hnull : uniformSchema nullName).
  { split; [repeat constructor; cbn; intuition discriminate|].
    intros r [<-|[]]. reflexivity. }
  assert (Hempty : uniformSchema emptyName).
  { split; [repeat constructor; cbn; intuition discriminate|].
    intros r [<-|[]]. reflexivity. }
  assert (Hsame : convertToCsv nullName = convertToCsv emptyName)
    by reflexivity.
  assert (Hone : forall v : jsValue, uniformSchema [ [("name", v)] ]).
  { intros v. split; [repeat constructor; cbn; intuition discriminate|].
    intros r [<-|[]]. reflexivity. }
  split.
  { intros [read Hread].
    assert (Heq : nullName = emptyName).
    { rewrite <- (Hread nullName Hnull), Hsame.
      exact (Hread emptyName Hempty). }
    discriminate Heq. }
  split; [exact Hnull|]. split; [exact Hempty|].
  split; [discriminate|]. split; [exact Hsame|].
  split; [apply Hone|].
  assert (H1 : deserialize numberColumn (convertToCsv innerQuote)
               = Some [ [("name",
                          VString ("a" ++ str1 dquote ++ str1 dquote ++ "b"))] ])
    by reflexivity.
  split; [exact H1|]. split; [rewrite H1; discriminate|].
  split; [apply Hone|].
  assert (H2 : deserialize numberColumn (convertToCsv loneQuote)
               = Some [ [("name", VString EmptyString)] ])
    by reflexivity.
  split; [exact H2|]. split; [rewrite H2; discriminate|].
  split; [apply Hone|]. split; [reflexivity|].
  split.
  { split; [repeat constructor; cbn; intuition discriminate|].
    intros r [<-|[<-|[]]]; reflexivity. }
  assert (H3 : deserialize numberColumn (convertToCsv emptyLast)
               = Some [ [("name", VString "ASHA")] ])
    by reflexivity.
  split; [exact H3|]. rewrite H3. discriminate.
Qed.

(** C1, witness: the records of a table of two full rows, with number
    columns [sno] and [rank]; a name holds quotes and a comma, another a
    line feed, a rank is [null] and a region is the empty string. *)
Lemma round_trip_on_typed_records_witness :
  uniformSchema (byValue (extractRecords mixedRows)) /\
  (forall k, In k (keys (hd [] (byValue (extractRecords mixedRows)))) ->
             quoteFree k) /\
  (byValue (extractRecords mixedRows) <> [] ->
   keys (hd [] (byValue (extractRecords mixedRows))) <> []) /\
  (forall r, In r (byValue (extractRecords mixedRows)) ->
             conforms numberColumn r) /\
  ~ blankLine (last (byValue (extractRecords mixedRows)) []) /\
  deserialize numberColumn (convertToCsv (byValue (extractRecords mixedRows)))
    = Some (byValue (extractRecords mixedRows)).
Proof.
  assert (Hdata : byValue (extractRecords mixedRows) = mixedData)
    by reflexivity.
  rewrite Hdata.
  assert (H1 : uniformSchema mixedData).
  { split.
    - repeat constructor; cbn [keys map fst hd mixedData In];
        intuition discriminate.
    - intros r Hr. repeat (destruct Hr as [<-|Hr]; [reflexivity|]). destruct Hr. }
  assert (H2 : forall k, In k (keys (hd [] mixedData)) -> quoteFree k).
  { intros k Hk. repeat (destruct Hk as [<-|Hk]; [reflexivity|]). destruct Hk. }
  assert (H3 : mixedData <> [] -> keys (hd [] mixedData) <> [])
    by (intros _; discriminate).
  assert (H4 : forall r, In r mixedData -> conforms numberColumn r).
  { intros r Hr k v Hin.
    repeat (destruct Hr as [<-|Hr];
            [repeat (destruct Hin as [Heq|Hin];
                     [inversion Heq; subst k v; clear Heq; typed_value|]);
             destruct Hin|]).
    destruct Hr. }
  assert (H5 : ~ blankLine (last mixedData []))
    by (intros (k & v & Heq & _); discriminate Heq).
  split; [exact H1|]. split; [exact H2|]. split; [exact H3|].
  split; [exact H4|]. split; [exact H5|].
  exact (round_trip_on_typed_records numberColumn mixedData H1 H2 H3 H4 H5).
Defined.


(** C2, counterexample.  On a site whose only results view settles with
    no table, the table function is never run and the leaf is reported as
    failed, not as empty. *)
Lemma missing_table_is_reported_failed :
  snd (crawl noTableSite) = Ok tt /\
  tableReads (trace (fst (crawl noTableSite))) = [] /\
  reportedEmpty (trace (fst (crawl noTableSite))) = [] /\
  reportedFailed (trace (fst (crawl noTableSite))) = [("A", "X")].
Proof. vm_compute. repeat split. Qed.

(** C5, counterexample.  The file of [(A,X)] is written, the step back
    after it fails, the step back of the [catch] block works: [(A,Y)] is
    attempted. *)
Lemma retried_step_back_continues :
  map fst (filesWritten (trace (fst (crawl retrySite))))
    = [ ["2025 phase 2 data"; "A"; "X.csv"];
        ["2025 phase 2 data"; "B"; "Z.csv"] ] /\
  stepsBack (trace (fst (crawl retrySite)))
    = [Throw "Navigation timeout"; Ok tt; Ok tt; Ok tt] /\
  attempts (trace (fst (crawl retrySite)))
    = [("A", "X"); ("A", "Y"); ("B", "Z")] /\
  In ("A", "Y") (attempts (trace (fst (crawl retrySite)))).
Proof. vm_compute. repeat split. right. left. reflexivity. Qed.



(** C4, counterexample.  The submission of [(A,X)] fails and the step
    back of the [catch] block fails too: the crawl does not go on with the
    next leaf.  [(A,Y)], which the dropdown of [A] offers, is never
    attempted, and the crawl goes on with [B]. *)
Lemma failed_submission_can_skip_leaves :
  snd (crawl lostSite) = Ok tt /\
  offered lostSite optA = [optX; optY] /\
  reportedFailed (trace (fst (crawl lostSite))) = [("A", "X")] /\
  stepsBack (trace (fst (crawl lostSite))) = [Throw "Still stuck"; Ok tt] /\
  abandonments (trace (fst (crawl lostSite))) = ["Still stuck"] /\
  attempts (trace (fst (crawl lostSite))) = [("A", "X"); ("B", "Z")] /\
  ~ In ("A", "Y") (attempts (trace (fst (crawl lostSite)))).
Proof.
  vm_compute. repeat split. intros [H|[H|[]]]; discriminate H.
Qed.

(** C4, witness: the leaf [(B,Z)] of the first scenario of the spec, after
    which the step back works, and the leaf [(A,X)] of the site on which
    the step back fails, with [(A,Y)] after it. *)
Lemma submit_error_is_caught_witness :
  (submitLeaf Site.t Site.handle optB optZ
     (seen (fresh specSite) [ConsoleLog (MsgFetchingBranch (name optZ))])
     = (submitted, Throw "Navigation timeout") /\
   snd (branchBody Site.t Site.handle optB dirB optZ (fresh specSite))
     = Ok Next /\
   tableReads
     (trace (fst (branchBody Site.t Site.handle optB dirB optZ (fresh specSite))))
     = [] /\
   reportedFailed
     (trace (fst (branchBody Site.t Site.handle optB dirB optZ (fresh specSite))))
     = [("B", "Z")] /\
   stepsBack
     (trace (fst (branchBody Site.t Site.handle optB dirB optZ (fresh specSite))))
     = [Ok tt]) /\
  (submitLeaf Site.t Site.handle optA optX
     (seen (fresh lostSite) [ConsoleLog (MsgFetchingBranch (name optX))])
     = (lost, Throw "Navigation timeout") /\
   snd (branchBody Site.t Site.handle optA dirA optX (fresh lostSite))
     = Ok Break /\
   reportedFailed
     (trace (fst (branchBody Site.t Site.handle optA dirA optX (fresh lostSite))))
     = [("A", "X")] /\
   stepsBack
     (trace (fst (branchBody Site.t Site.handle optA dirA optX (fresh lostSite))))
     = [Throw "Still stuck"] /\
   forOf Site.t [optX; optY] (branchBody Site.t Site.handle optA dirA)
     (fresh lostSite)
     = (fst (branchBody Site.t Site.handle optA dirA optX (fresh lostSite)),
        Ok tt)).
Proof.
  assert (H1 : submitLeaf Site.t Site.handle optB optZ
                 (seen (fresh specSite)
                    [ConsoleLog (MsgFetchingBranch (name optZ))])
               = (submitted, Throw "Navigation timeout"))
    by (vm_compute; reflexivity).
  assert (H2 : submitLeaf Site.t Site.handle optA optX
                 (seen (fresh lostSite)
                    [ConsoleLog (MsgFetchingBranch (name optX))])
               = (lost, Throw "Navigation timeout"))
    by (vm_compute; reflexivity).
  split.
  - split; [exact H1|].
    pose proof (submit_error_is_caught Site.t Site.handle optB dirB optZ []
                  (fresh specSite) submitted "Navigation timeout" H1) as P.
    cbv zeta in P. destruct P as [(d & Htr & Hreads & _ & Hfailed & Hback) P].
    rewrite Htr. cbn [trace fresh app].
    assert (Hgo : snd (Site.handle unit GoBack (world submitted)) = Ok tt)
      by (vm_compute; reflexivity).
    rewrite Hgo in Hback.
    destruct (Site.handle unit GoBack (world submitted)) as [w2 [[]|e']]
      eqn:Hcall; [|discriminate Hgo].
    assert (Hwait : snd (Site.handle unit (WaitForNavigation NewPage) w2)
                    = Ok tt).
    { vm_compute in Hcall. inversion Hcall. vm_compute. reflexivity. }
    destruct (Site.handle unit (WaitForNavigation NewPage) w2)
      as [w3 [[]|e']]; [|discriminate Hwait].
    destruct P as [Hbody _]. rewrite Hbody.
    split; [reflexivity|]. split; [exact Hreads|].
    split; [exact Hfailed|exact Hback].
  - split; [exact H2|].
    pose proof (submit_error_is_caught Site.t Site.handle optA dirA optX [optY]
                  (fresh lostSite) lost "Navigation timeout" H2) as P.
    cbv zeta in P. destruct P as [(d & Htr & _ & _ & Hfailed & Hback) P].
    rewrite Htr. cbn [trace fresh app].
    assert (Hgo : snd (Site.handle unit GoBack (world lost))
                  = Throw "Still stuck")
      by (vm_compute; reflexivity).
    rewrite Hgo in Hback.
    destruct (Site.handle unit GoBack (world lost)) as [w2 [[]|e']];
      [discriminate Hgo|].
    destruct P as [Hbody Hloop]. rewrite Hloop, Hbody.
    split; [reflexivity|]. split; [exact Hfailed|].
    split; [exact Hback|reflexivity].
Defined.

(** C2, witness: the leaf of the site with no table. *)
Lemma missing_table_fails_leaf_witness :
  submitLeaf Site.t Site.handle optA optX
    (seen (fresh noTableSite) [ConsoleLog (MsgFetchingBranch (name optX))])
    = (settled, Ok tt) /\
  snd (Site.handle unit (WaitForSelector NewPage resultsTableSelector)
         (world settled)) = Throw timeout /\
  tableReads
    (trace (fst (branchBody Site.t Site.handle optA dirA optX (fresh noTableSite))))
    = [] /\
  reportedFailed
    (trace (fst (branchBody Site.t Site.handle optA dirA optX (fresh noTableSite))))
    = [("A", "X")].
Proof.
  assert (H : submitLeaf Site.t Site.handle optA optX
                (seen (fresh noTableSite) [ConsoleLog (MsgFetchingBranch (name optX))])
              = (settled, Ok tt))
    by (vm_compute; reflexivity).
  split; [exact H|]. split; [vm_compute; reflexivity|].
  destruct (missing_table_fails_leaf Site.t Site.handle optA dirA optX
              (fresh noTableSite) settled H) as (d & Htr & P).
  assert (Hwait : Site.handle unit (WaitForSelector NewPage resultsTableSelector)
                    (world settled) = (world settled, Throw timeout))
    by (vm_compute; reflexivity).
  rewrite Hwait in P. destruct P as (Hreads & _ & _ & Hfailed & _).
  rewrite Htr. split; [exact Hreads|exact Hfailed].
Defined.

(** C5, witness: the leaf [(A,X)] of the site on which both steps back
    fail, and the college [A] of that site. *)
Lemma failed_recovery_abandons_college_witness :
  fetchBranch Site.t Site.handle optA dirA optX (fresh stuckSite)
    = (thrownAt, Throw "Navigation timeout") /\
  returnToForm Site.t Site.handle
    (seen thrownAt
       [ConsoleError (MsgCouldNotFetch (name optA) (name optX) "Navigation timeout");
        ConsoleLog MsgAttemptingBack])
    = (stuckAt, Throw "Still stuck") /\
  forOf Site.t [optX; optY] (branchBody Site.t Site.handle optA dirA)
    (fresh stuckSite)
    = (seen stuckAt [ConsoleError (MsgFailedGoBack "Still stuck")], Ok tt) /\
  attempts (trace (seen stuckAt [ConsoleError (MsgFailedGoBack "Still stuck")]))
    = [(EmptyString, "X")] /\
  In "Still stuck"
     (abandonments
        (trace (fst (collegeBody Site.t Site.handle optA (fresh stuckSite))))) /\
  forOf Site.t [optA; optB] (collegeBody Site.t Site.handle) (fresh stuckSite)
    = forOf Site.t [optB] (collegeBody Site.t Site.handle)
        (fst (collegeBody Site.t Site.handle optA (fresh stuckSite))).
Proof.
  assert (H1 : fetchBranch Site.t Site.handle optA dirA optX (fresh stuckSite)
               = (thrownAt, Throw "Navigation timeout"))
    by (vm_compute; reflexivity).
  assert (H2 : returnToForm Site.t Site.handle
                 (seen thrownAt
                    [ConsoleError (MsgCouldNotFetch (name optA) (name optX)
                                     "Navigation timeout");
                     ConsoleLog MsgAttemptingBack])
               = (stuckAt, Throw "Still stuck"))
    by (vm_compute; reflexivity).
  assert (H3 : In "Still stuck"
                 (abandonments
                    (trace (fst (collegeBody Site.t Site.handle optA
                                   (fresh stuckSite))))))
    by (vm_compute; left; reflexivity).
  destruct (failed_recovery_abandons_college Site.t Site.handle optA dirA
              optX [optY] (fresh stuckSite) thrownAt stuckAt
              "Navigation timeout" "Still stuck" H1 H2) as [Hloop Hcollege].
  split; [exact H1|]. split; [exact H2|]. split; [exact Hloop|].
  split; [vm_compute; reflexivity|]. split; [exact H3|].
  remember (collegeBody Site.t Site.handle optA (fresh stuckSite)) as run
    eqn:Hrun in *.
  destruct run as [sEnd r]. symmetry in Hrun. cbn [fst] in *.
  exact (proj2 (proj2 (Hcollege [optB] (fresh stuckSite) sEnd r (trace sEnd)
                         "Still stuck" Hrun eq_refl H3))).
Defined.

(** A college that cannot be selected: the run throws there, no leaf is
    attempted, the college after it is not processed, the browser is not
    closed, and the last line of the script prints the error. *)
Example college_error_scenario :
  snd (crawl failingSite) = Throw "Navigation timeout" /\
  processed (trace (fst (crawl failingSite))) = ["A"] /\
  attempts (trace (fst (crawl failingSite))) = [] /\
  closes (trace (fst (crawl failingSite))) = [] /\
  files (world (fst (crawl failingSite))) = [] /\
  snd (main Site.t Site.handle (fresh failingSite)) = Ok tt /\
  errors (trace (fst (main Site.t Site.handle (fresh failingSite))))
    = [MsgUncaught "Navigation timeout"].
Proof. vm_compute. repeat split. Qed.

Lemma columns_of_first_record_witness :
  ~ In "note" (keys [("name", VString "ASHA")]) /\
  convertToCsv
    [ [("name", VString "ASHA")];
      [("name", VString "RAVI"); ("note", VString "late")] ]
  = convertToCsv [ [("name", VString "ASHA")]; [("name", VString "RAVI")] ].
Proof.
  assert (H : ~ In "note" (keys [("name", VString "ASHA")]))
    by (intros [H|[]]; discriminate H).
  split; [exact H|].
  exact (columns_of_first_record [("name", VString "ASHA")] [] []
           [("name", VString "RAVI")] [] "note" (VString "late") H).
Defined.

Lemma absent_property_is_inherited_witness :
  (~ In "rank" (keys [("name", VString "ASHA")]) /\
   joinElement (csvValue (getProp [("name", VString "ASHA")] "rank"))
     = EmptyString) /\
  (~ In "constructor" (keys [("name", VString "ASHA")]) /\
   joinElement (csvValue (getProp [("name", VString "ASHA")] "constructor"))
     = "function Object() { [native code] }").
Proof.
  assert (H : forall h, h <> "name" -> ~ In h (keys [("name", VString "ASHA")])).
  { intros h Hne [Heq|[]]. apply Hne. symmetry. exact Heq. }
  split.
  - assert (Hrank : ~ In "rank" (keys [("name", VString "ASHA")]))
      by (apply H; discriminate).
    split; [exact Hrank|].
    refine (proj1 (proj1 (proj2 (absent_property_is_inherited
                                   [("name", VString "ASHA")] "rank" Hrank))
                     _ _ _)); [discriminate| |discriminate].
    cbn [prototypeMethods In]. intuition discriminate.
  - assert (Hc : ~ In "constructor" (keys [("name", VString "ASHA")]))
      by (apply H; discriminate).
    split; [exact Hc|].
    exact (proj1 (proj2 (proj2 (absent_property_is_inherited
                                  [("name", VString "ASHA")] "constructor" Hc)))
             eq_refl).
Defined.

Lemma string_fields_are_distinct_witness :
  joinElement (csvValue (VString "a,b")) = joinElement (csvValue (VString "a,b")) /\
  "a,b" = "a,b".
Proof.
  split; [reflexivity|].
  exact (string_fields_are_distinct "a,b" "a,b" eq_refl).
Defined.

Lemma extracted_record_shape_witness :
  In (makeRecord ["1"; "2511A0501"; "1042"; "ASHA"; "F"; "OC"; "OU"; "CONV"])
     (extractRecords twoRows) /\
  keys (makeRecord ["1"; "2511A0501"; "1042"; "ASHA"; "F"; "OC"; "OU"; "CONV"])
    = fieldNames.
Proof.
  assert (H : In (makeRecord ["1"; "2511A0501"; "1042"; "ASHA"; "F"; "OC";
                              "OU"; "CONV"])
                 (extractRecords twoRows))
    by (left; reflexivity).
  split; [exact H|].
  exact (proj1 (extracted_record_shape twoRows _ H)).
Defined.

Lemma table_text_header_witness :
  (filter hasData (tl twoRows) = tl twoRows /\
   convertToCsv (byValue (extractRecords twoRows)) =
   join (str1 newline)
     (headerLine
      :: map (csvRow fieldNames) (byValue (extractRecords twoRows)))) /\
  (filter hasData (tl shortTable) = [shortRow] /\
   convertToCsv (byValue (extractRecords shortTable)) =
   join (str1 newline)
     (join (str1 comma) (map quoted ["sno"; "hallticketno"; "rank"])
      :: map (csvRow ["sno"; "hallticketno"; "rank"])
           (byValue (extractRecords shortTable)))).
Proof.
  split.
  - split; [reflexivity|].
    exact (proj1 (table_text_header twoRows _ _ eq_refl)).
  - split; [reflexivity|].
    exact (proj1 (table_text_header shortTable shortRow [] eq_refl)).
Defined.

Lemma clean_name_collisions_witness :
  isPlain "-" = false /\
  cleanName ("CSE" ++ String "-" "AI") = cleanName ("CSE" ++ "AI") /\
  cleanName ("CSE" ++ "  " ++ "AI") = cleanName ("CSE" ++ " " ++ "AI").
Proof.
  split; [reflexivity|].
  exact (clean_name_collisions "CSE" "AI" "-" eq_refl).
Defined.

End Examples.
